(** * aws_to_postgres_sync: the DynamoDB -> PostgreSQL synchronisation routine

    A shallow embedding of [src/app.py]: the routine [run_dynamo_sync]
    (paginated scan, preparation of the rows, staged merge inside one
    transaction) and the endpoint [manual_sync] that triggers it.

    Python values are an inductive type, Python dictionaries are finite maps
    with string keys, tables are lists of rows in insertion order, a raised
    exception is a value of type [exn], and the effects on the two stores are
    threaded explicitly: every call made to DynamoDB or to PostgreSQL is
    appended to a log of events.

    Left out: the [print] traces, the Flask application context the routine
    runs in, and the scheduler. *)

From stdpp Require Import gmap strings list sorting.
From Stdlib Require Import ZArith Lia.

Set Warnings "-register-all".
Local Open Scope Z_scope.

(** ** Exceptions and results *)

Inductive exn_class :=
  | TypeError | ValueError | OverflowError      (* Python builtins *)
  | ClientError                                  (* botocore *)
  | OperationalError | InterfaceError | DataError   (* psycopg2 *)
  | NotNullViolation | UniqueViolation.          (* psycopg2.errors *)

(** [exn_msg e] is [str(e)]. *)
Record exn := Exn { exn_cls : exn_class; exn_msg : string }.

Inductive result (A : Type) :=
  | Ok (a : A)
  | Raise (e : exn).
Arguments Ok {A} a.
Arguments Raise {A} e.

(** Sequencing: [x ← c; k] runs [k] unless [c] has raised. *)
#[global] Instance result_bind : MBind result := fun A B k r =>
  match r with
  | Ok a => k a
  | Raise e => Raise e
  end.

(** A call of a Python function either returns a value or ends with an
    exception that nothing in the function catches. *)
Inductive outcome (A : Type) :=
  | Returned (a : A)
  | Raised (e : exn).
Arguments Returned {A} a.
Arguments Raised {A} e.

Definition of_option {A} (e : exn) (o : option A) : result A :=
  match o with
  | Some a => Ok a
  | None => Raise e
  end.

(** [for x in xs: out.append(f x)]: the first failure ends the loop. *)
Fixpoint rmap {A B} (f : A -> result B) (xs : list A) : result (list B) :=
  match xs with
  | [] => Ok []
  | x :: xs' => y ← f x; ys ← rmap f xs'; Ok (y :: ys)
  end.

(** ** Python numbers

    [decimal.Decimal] as boto3 produces it: a finite decimal, coefficient
    times a power of ten. *)
Record decimal := Decimal { d_coef : Z; d_exp : Z }.

(** [int(Decimal)] truncates towards zero. *)
Definition decimal_trunc (d : decimal) : Z :=
  if decide (0 <= d_exp d) then d_coef d * 10 ^ d_exp d
  else d_coef d ÷ 10 ^ (- d_exp d).

(** Binary floating point and the parsing of numerals in strings are not
    part of the program; they are an interface the program is stated over. *)
Class PyNumeric := {
  pyfloat : Type;
  float_zero : pyfloat;                        (* the literal 0.0 *)
  float_of_Z : Z -> option pyfloat;            (* float(int); None: OverflowError *)
  float_of_decimal : decimal -> pyfloat;       (* float(Decimal) *)
  float_of_str : string -> option pyfloat;     (* float(str); None: ValueError *)
  int_of_float : pyfloat -> option Z;          (* int(float); None: inf or nan *)
  int_of_str : string -> option Z;             (* int(str); None: ValueError *)
}.

Section Values.
Context `{PyNumeric}.

(** ** Python values

    The values a DynamoDB item holds once boto3 has deserialised it, and the
    [int] and [float] literals the program supplies as defaults. *)
Inductive pyval :=
  | PyNone
  | PyBool (b : bool)
  | PyInt (z : Z)
  | PyFloat (f : pyfloat)
  | PyDecimal (d : decimal)
  | PyStr (s : string)
  | PyBinary (b : string)
  | PyList (l : list pyval)
  | PySet (l : list pyval)
  | PyDict (m : gmap string pyval).

Definition entry (k : string) (v : pyval) : string * pyval := (k, v).

(** A dictionary display [{k1: v1, ...}]. *)
Definition dict (l : list (string * pyval)) : gmap string pyval := list_to_map l.

(** [d.get(k)] and [d.get(k, default)]. *)
Definition dict_get (d : gmap string pyval) (k : string) (default : pyval) : pyval :=
  match d !! k with
  | Some v => v
  | None => default
  end.

(** [int(v)] *)
Definition py_int (v : pyval) : result Z :=
  match v with
  | PyBool b => Ok (if b then 1 else 0)
  | PyInt z => Ok z
  | PyFloat f =>
      of_option (Exn OverflowError "cannot convert float to integer") (int_of_float f)
  | PyDecimal d => Ok (decimal_trunc d)
  | PyStr s =>
      of_option (Exn ValueError "invalid literal for int() with base 10") (int_of_str s)
  | PyNone | PyBinary _ | PyList _ | PySet _ | PyDict _ =>
      Raise (Exn TypeError "int() argument must be a string, a bytes-like object or a real number")
  end.

(** [float(v)] *)
Definition py_float (v : pyval) : result pyfloat :=
  match v with
  | PyBool b =>
      of_option (Exn OverflowError "int too large to convert to float")
                (float_of_Z (if b then 1 else 0))
  | PyInt z =>
      of_option (Exn OverflowError "int too large to convert to float") (float_of_Z z)
  | PyFloat f => Ok f
  | PyDecimal d => Ok (float_of_decimal d)
  | PyStr s =>
      of_option (Exn ValueError "could not convert string to float") (float_of_str s)
  | PyNone | PyBinary _ | PyList _ | PySet _ | PyDict _ =>
      Raise (Exn TypeError "float() argument must be a string or a real number")
  end.

(** ** Step 2 of [run_dynamo_sync]: preparing the rows (lines 76-84) *)

(** One tuple of [datos_para_insertar]. *)
Record prepared := Prepared {
  t_id_lectura : pyval;
  t_device_id : pyval;
  t_temperatura : pyfloat;
  t_humedad : pyfloat;
  t_distancia_cm : pyfloat;
  t_luz_porcentaje : Z;
  t_estado_luz : pyval;
  t_timestamp : Z;
}.

(** The tuple built from one item; its components are evaluated from left
    to right, so the first coercion that fails is the one that raises. *)
Definition normalize_item (item : gmap string pyval) : result prepared :=
  let id_lectura := dict_get item "id_lectura" PyNone in
  let device_id := dict_get item "device_id" PyNone in
  temperatura ← py_float (dict_get item "temperatura" (PyFloat float_zero));
  humedad ← py_float (dict_get item "humedad" (PyFloat float_zero));
  distancia_cm ← py_float (dict_get item "distancia_cm" (PyFloat float_zero));
  luz_porcentaje ← py_int (dict_get item "luz_porcentaje" (PyInt 0));
  let estado_luz := dict_get item "estado_luz" PyNone in
  timestamp ← py_int (dict_get item "timestamp" PyNone);
  Ok (Prepared id_lectura device_id temperatura humedad distancia_cm
               luz_porcentaje estado_luz timestamp).

(** The loop [for item in items: datos_para_insertar.append(...)]. *)
Definition normalize (items : list (gmap string pyval)) : result (list prepared) :=
  rmap normalize_item items.

End Values.

(** ** DynamoDB: the source table

    One response of [dynamo_table.scan]: the keys ['Items'] and
    ['LastEvaluatedKey'] may each be absent. *)
Record scan_response `{PyNumeric} := ScanResponse {
  Items : option (list (gmap string pyval));
  LastEvaluatedKey : option (gmap string pyval);
}.
Arguments ScanResponse {_} _ _.

(** ** PostgreSQL: the calls the program makes on a connection *)
Inductive pg_op :=
  | OpConnect        (* psycopg2.connect *)
  | OpCursor         (* conn.cursor() *)
  | OpCreateTemp     (* cursor.execute(temp_table_query) *)
  | OpStage          (* execute_values(cursor, insert_temp_query, ...) *)
  | OpMove           (* cursor.execute(insert_final_query) *)
  | OpCommit         (* conn.commit() *)
  | OpRollback       (* conn.rollback() *)
  | OpClose.         (* conn.close() *)

#[global] Instance pg_op_eq_dec : EqDecision pg_op.
Proof. solve_decision. Defined.

(** What a run does to the outside world, in order. *)
Inductive event `{PyNumeric} :=
  | EvScan (ExclusiveStartKey : option (gmap string pyval))
  | EvPg (op : pg_op).

Definition is_scan `{PyNumeric} (ev : event) : bool :=
  match ev with
  | EvScan _ => true
  | EvPg _ => false
  end.

(** The environment of one run: what DynamoDB answers to a scan request
    with the given [ExclusiveStartKey] (none on the first request), and which
    PostgreSQL call, if any, fails for a reason outside the data (server
    down, connection lost, ...).  Every call of the merge consults it,
    [conn.rollback()] in the [except] handler included; only [conn.close()]
    and [cursor.close()], which release local resources, are taken not to
    raise. *)
Record world `{PyNumeric} := World {
  dynamo_scan : option (gmap string pyval) -> result scan_response;
  pg_fault : pg_op -> option exn;
}.
Arguments World {_} _ _.

(** The server side of SQL that the program relies on: column types and the
    conversions into them ([None] is the statement failing with a data
    error; for [adapt_varchar] the inner [None] is SQL NULL), and the order
    in which a sequential scan returns the rows of a table. *)
Class Postgres `{PyNumeric} := {
  uuid : Type;
  uuid_eq_dec :: EqDecision uuid;
  numeric : Type;
  timestamptz : Type;
  cast_uuid : string -> option uuid;                        (* s::uuid *)
  to_timestamp : Z -> option timestamptz;                   (* to_timestamp(n) *)
  adapt_varchar : nat -> pyval -> option (option string);   (* into VARCHAR(n) *)
  adapt_numeric : nat -> nat -> pyfloat -> option numeric;  (* into NUMERIC(p, s) *)
  seq_scan : forall A : Type, list A -> list A;             (* SELECT ... FROM t *)
  seq_scan_perm : forall (A : Type) (l : list A), seq_scan A l ≡ₚ l;
}.
Arguments seq_scan {_ _ _} l.

(** INSERT with or without an [ON CONFLICT (pk) DO NOTHING] clause. *)
Inductive on_conflict := OnConflictDoNothing | NoConflictClause.

(** [INSERT INTO tbl ... new]: the rows of [new] are inserted one after the
    other; a row whose primary key is already in the table is skipped under
    [ON CONFLICT DO NOTHING] and is a unique violation otherwise.  Returns the
    table and the number of rows inserted ([cursor.rowcount]). *)
Fixpoint insert_rows {R K : Type} `{EqDecision K} (pk : R -> K) (oc : on_conflict)
    (tbl new : list R) : result (list R * nat) :=
  match new with
  | [] => Ok (tbl, 0%nat)
  | r :: new' =>
      if decide (pk r ∈ pk <$> tbl) then
        match oc with
        | OnConflictDoNothing => insert_rows pk oc tbl new'
        | NoConflictClause =>
            Raise (Exn UniqueViolation "duplicate key value violates unique constraint")
        end
      else
        res ← insert_rows pk oc (tbl ++ [r]) new';
        Ok (res.1, S res.2)
  end.

Section Sync.
Context `{Postgres}.

(** ** The two tables *)

(** A row of [temp_lecturas] (lines 94-103). *)
Record staged := Staged {
  s_id_lectura : string;                 (* VARCHAR(255) PRIMARY KEY *)
  s_device_id : option string;           (* VARCHAR(50) *)
  s_temperatura : numeric;               (* NUMERIC(5, 2) *)
  s_humedad : numeric;                   (* NUMERIC(5, 2) *)
  s_distancia_cm : numeric;              (* NUMERIC(10, 3) *)
  s_luz_porcentaje : Z;                  (* INTEGER *)
  s_estado_luz : option string;          (* VARCHAR(20) *)
  s_timestamp_lectura_unix : Z;          (* BIGINT *)
}.

(** A row of [lecturas_sensores], the permanent table. *)
Record reading := Reading {
  id_lectura : uuid;
  device_id : option string;
  temperatura : numeric;
  humedad : numeric;
  distancia_cm : numeric;
  luz_porcentaje : Z;
  estado_luz : option string;
  timestamp_lectura : timestamptz;
}.

Definition data_error (msg : string) : exn := Exn DataError msg.

Definition in_range (bits : Z) (z : Z) : bool :=
  bool_decide (- 2 ^ (bits - 1) <= z < 2 ^ (bits - 1)).

(** One tuple of the VALUES list, converted to the column types of
    [temp_lecturas]. *)
Definition stage_row (t : prepared) : result staged :=
  id ← of_option (data_error "value too long for type character varying(255)")
         (adapt_varchar 255 (t_id_lectura t));
  id ← of_option (Exn NotNullViolation "null value in column id_lectura") id;
  dev ← of_option (data_error "value too long for type character varying(50)")
          (adapt_varchar 50 (t_device_id t));
  tmp ← of_option (data_error "numeric field overflow")
          (adapt_numeric 5 2 (t_temperatura t));
  hum ← of_option (data_error "numeric field overflow")
          (adapt_numeric 5 2 (t_humedad t));
  dist ← of_option (data_error "numeric field overflow")
           (adapt_numeric 10 3 (t_distancia_cm t));
  luz ← (if in_range 32 (t_luz_porcentaje t) then Ok (t_luz_porcentaje t)
         else Raise (data_error "integer out of range"));
  est ← of_option (data_error "value too long for type character varying(20)")
          (adapt_varchar 20 (t_estado_luz t));
  ts ← (if in_range 64 (t_timestamp t) then Ok (t_timestamp t)
        else Raise (data_error "bigint out of range"));
  Ok (Staged id dev tmp hum dist luz est ts).

(** One row of the SELECT of [insert_final_query] (lines 124-133). *)
Definition convert_row (r : staged) : result reading :=
  id ← of_option (data_error "invalid input syntax for type uuid")
         (cast_uuid (s_id_lectura r));
  ts ← of_option (data_error "timestamp out of range")
         (to_timestamp (s_timestamp_lectura_unix r));
  Ok (Reading id (s_device_id r) (s_temperatura r) (s_humedad r)
              (s_distancia_cm r) (s_luz_porcentaje r) (s_estado_luz r) ts).

(** ** One connection

    What the open transaction sees: its own copy of the permanent table, and
    the temporary table once created. *)
Record session := Session {
  working : list reading;
  temp_lecturas : option (list staged);
}.

(** The state step 3 runs in: the committed permanent table, the local
    variable [conn] and the log of calls. *)
Record pg_state := PgState {
  lecturas_sensores : list reading;
  conn : option session;
  log : list event;
}.

Definition M (A : Type) : Type := pg_state -> result A * pg_state.

#[local] Instance M_ret : MRet M := fun A a s => (Ok a, s).
#[local] Instance M_bind : MBind M := fun A B k m s =>
  match m s with
  | (Ok a, s') => k a s'
  | (Raise e, s') => (Raise e, s')
  end.

Definition record (ev : event) (s : pg_state) : pg_state :=
  PgState (lecturas_sensores s) (conn s) (log s ++ [ev]).

(** A call to PostgreSQL: logged, and raising when the environment makes it
    fail. *)
Definition call (w : world) (op : pg_op) : M () := fun s =>
  match pg_fault w op with
  | Some e => (Raise e, record (EvPg op) s)
  | None => (Ok (), record (EvPg op) s)
  end.

(** A statement run on the open connection. *)
Definition on_session {A} (f : session -> result (A * session)) : M A := fun s =>
  match conn s with
  | Some c =>
      match f c with
      | Ok (a, c') => (Ok a, PgState (lecturas_sensores s) (Some c') (log s))
      | Raise e => (Raise e, s)
      end
  | None => (Raise (Exn OperationalError "connection already closed"), s)
  end.

(** [conn = get_db_connection()] (lines 31-40, 89) *)
Definition begin : M () := fun s =>
  (Ok (), PgState (lecturas_sensores s)
                  (Some (Session (lecturas_sensores s) None)) (log s)).

Definition get_db_connection (w : world) : M () :=
  _ ← call w OpConnect;
  begin.

(** [cursor.execute(temp_table_query)]: CREATE TEMPORARY TABLE IF NOT EXISTS *)
Definition execute_temp_table_query (w : world) : M () :=
  _ ← call w OpCreateTemp;
  on_session (fun c =>
    Ok ((), Session (working c) (Some (default [] (temp_lecturas c))))).

(** [execute_values(cursor, insert_temp_query, datos_para_insertar)]:
    INSERT INTO temp_lecturas ... ON CONFLICT (id_lectura) DO NOTHING *)
Definition execute_insert_temp_query (w : world) (datos_para_insertar : list prepared)
    : M () :=
  _ ← call w OpStage;
  on_session (fun c =>
    tmp ← of_option (Exn OperationalError "relation temp_lecturas does not exist")
            (temp_lecturas c);
    rows ← rmap stage_row datos_para_insertar;
    res ← insert_rows s_id_lectura OnConflictDoNothing tmp rows;
    Ok ((), Session (working c) (Some res.1))).

(** [cursor.execute(insert_final_query)] followed by [cursor.rowcount]:
    INSERT INTO lecturas_sensores SELECT ... FROM temp_lecturas
    ON CONFLICT (id_lectura) DO NOTHING *)
Definition execute_insert_final_query (w : world) : M nat :=
  _ ← call w OpMove;
  on_session (fun c =>
    tmp ← of_option (Exn OperationalError "relation temp_lecturas does not exist")
            (temp_lecturas c);
    rows ← rmap convert_row (seq_scan tmp);
    res ← insert_rows id_lectura OnConflictDoNothing (working c) rows;
    Ok (res.2, Session res.1 (temp_lecturas c))).

(** [conn.commit()]: the transaction's table becomes the committed one and
    the temporary table is dropped (ON COMMIT DROP); when the commit fails
    nothing is committed. *)
Definition publish : M () := fun s =>
  match conn s with
  | Some c => (Ok (), PgState (working c) (Some (Session (working c) None)) (log s))
  | None => (Raise (Exn OperationalError "connection already closed"), s)
  end.

Definition commit (w : world) : M () :=
  _ ← call w OpCommit;
  publish.

(** [conn.rollback()]: the changes of the transaction are discarded, the
    temporary table with them; on a connection that is lost or already
    closed the call raises and nothing else happens. *)
Definition undo : M () := fun s =>
  (Ok (), PgState (lecturas_sensores s)
                  (Some (Session (lecturas_sensores s) None)) (log s)).

Definition rollback (w : world) : M () :=
  _ ← call w OpRollback;
  undo.

(** [conn.close()] *)
Definition close (s : pg_state) : pg_state :=
  PgState (lecturas_sensores s) None (log s ++ [EvPg OpClose]).

(** The result dictionaries of [run_dynamo_sync]. *)
Definition no_items : gmap string pyval :=
  dict [entry "status" (PyStr "no_items")].
Definition error_dynamo (e : exn) : gmap string pyval :=
  dict [entry "status" (PyStr "error_dynamo"); entry "error" (PyStr (exn_msg e))].
Definition success (registros_insertados : nat) : gmap string pyval :=
  dict [entry "status" (PyStr "success");
        entry "new_records" (PyInt (Z.of_nat registros_insertados))].
Definition error_postgres (e : exn) : gmap string pyval :=
  dict [entry "status" (PyStr "error_postgres"); entry "error" (PyStr (exn_msg e))].

(** ** Step 3 of [run_dynamo_sync]: the merge (lines 86-151) *)

(** The body of the [try] (lines 89-143).  [execute_values] sends the rows
    in pages of 100, one INSERT per page, which under ON CONFLICT DO NOTHING
    stages the same rows as one INSERT; [cursor.close()] has no effect on the
    tables. *)
Definition merge_try (w : world) (datos_para_insertar : list prepared) : M nat :=
  _ ← get_db_connection w;
  _ ← call w OpCursor;
  _ ← execute_temp_table_query w;
  _ ← execute_insert_temp_query w datos_para_insertar;
  registros_insertados ← execute_insert_final_query w;
  _ ← commit w;
  mret registros_insertados.

(** [try ... except Exception ... finally ...], starting from [conn = None].
    The handler (lines 144-148) calls [conn.rollback()] unguarded: when that
    call raises, its exception leaves the handler, the [return] of line 148
    is not reached, and, after the [finally] has closed the connection, the
    exception leaves the function. *)
Definition merge (w : world) (datos_para_insertar : list prepared)
    (db : list reading) (lg : list event)
    : outcome (gmap string pyval) * list reading * list event :=
  let s0 := PgState db None lg in
  let '(r, s1) := merge_try w datos_para_insertar s0 in
  let '(out, s2) :=
    match r with
    | Ok registros_insertados => (Returned (success registros_insertados), s1)
    | Raise e =>
        if conn s1 is Some _ then
          match rollback w s1 with
          | (Ok _, s2) => (Returned (error_postgres e), s2)
          | (Raise e', s2) => (Raised e', s2)
          end
        else (Returned (error_postgres e), s1)
    end in
  let s3 := if conn s2 is Some _ then close s2 else s2 in
  (out, lecturas_sensores s3, log s3).

(** ** Step 1 of [run_dynamo_sync]: the scan (lines 57-64)

    The [while True] loop; [fuel] bounds the number of iterations, and the
    result is [None] when the loop has not left within that bound. *)
Fixpoint scan_loop (w : world) (fuel : nat) (scan_kwargs : option (gmap string pyval))
    (items : list (gmap string pyval)) (lg : list event)
    : option (result (list (gmap string pyval)) * list event) :=
  match fuel with
  | O => None
  | S fuel' =>
      let lg' := lg ++ [EvScan scan_kwargs] in
      match dynamo_scan w scan_kwargs with
      | Raise e => Some (Raise e, lg')
      | Ok response =>
          let items' := items ++ default [] (Items response) in
          match LastEvaluatedKey response with
          | None => Some (Ok items', lg')
          | Some k => scan_loop w fuel' (Some k) items' lg'
          end
      end
  end.

(** [items = []; scan_kwargs = {}; while True: ...] *)
Definition scan_all (w : world) (fuel : nat)
    : option (result (list (gmap string pyval)) * list event) :=
  scan_loop w fuel None [] [].

(** ** [run_dynamo_sync] (lines 45-151)

    The function returns a result dictionary, or an exception leaves it:
    one raised while the rows are prepared, outside both [try] blocks, or
    the one of the rollback in the handler of the merge. *)
Definition run_dynamo_sync (w : world) (fuel : nat) (db : list reading)
    : option (outcome (gmap string pyval) * list reading * list event) :=
  '(scanned, lg) ← scan_all w fuel;
  match scanned with
  | Raise e => Some (Returned (error_dynamo e), db, lg)
  | Ok items =>
      if decide (items = []) then Some (Returned no_items, db, lg)
      else
        match normalize items with
        | Raise e => Some (Raised e, db, lg)
        | Ok datos_para_insertar =>
            Some (merge w datos_para_insertar db lg)
        end
  end.

(** ** The endpoint GET /sync-dynamo (lines 189-196) *)

Record http_response := HttpResponse {
  status_code : Z;
  json : option pyval;
}.

(** [jsonify(d)]: a JSON body, status 200. *)
Definition jsonify (d : gmap string pyval) : http_response :=
  HttpResponse 200 (Some (PyDict d)).

Definition manual_sync (w : world) (fuel : nat) (db : list reading)
    : option (outcome http_response * list reading * list event) :=
  '(result, db', lg) ← run_dynamo_sync w fuel db;
  match result with
  | Returned result =>
      Some (Returned (jsonify (dict [
              entry "message" (PyStr "Sincronización manual completada.");
              entry "result" (PyDict result)])), db', lg)
  | Raised e => Some (Raised e, db', lg)
  end.

(** Flask answers 500 Internal Server Error when the view function raises. *)
Definition flask_response (o : outcome http_response) : http_response :=
  match o with
  | Returned resp => resp
  | Raised _ => HttpResponse 500 None
  end.

Definition GET_sync_dynamo (w : world) (fuel : nat) (db : list reading)
    : option (http_response * list reading * list event) :=
  '(o, db', lg) ← manual_sync w fuel db;
  Some (flask_response o, db', lg).

End Sync.

Arguments no_items : simpl never.
Arguments error_dynamo : simpl never.
Arguments success : simpl never.
Arguments error_postgres : simpl never.

(** ** The endpoint GET /api/lecturas (lines 157-186) *)

(** The calls [get_lecturas] makes on its connection. *)
Inductive read_op :=
  | RdConnect        (* get_db_connection() *)
  | RdCursor         (* conn.cursor(cursor_factory=RealDictCursor) *)
  | RdExecute        (* cursor.execute("SELECT * FROM lecturas_sensores ORDER BY ...") *)
  | RdFetchall       (* cursor.fetchall() *)
  | RdClose.         (* conn.close() *)

#[global] Instance read_op_eq_dec : EqDecision read_op.
Proof. solve_decision. Defined.

(** The order of the column [timestamp_lectura]: total, with ties. *)
Class TimestampOrder `{Postgres} := {
  ts_le : relation timestamptz;
  ts_le_dec :: RelDecision ts_le;
  ts_le_trans :: Transitive ts_le;
  ts_le_total :: Total ts_le;
}.

Section Read.
Context `{TimestampOrder}.

(** Row [r1] comes no later than row [r2]. *)
Definition earlier (r1 r2 : reading) : Prop :=
  ts_le (timestamp_lectura r1) (timestamp_lectura r2).

#[global] Instance earlier_dec : RelDecision earlier.
Proof. intros r1 r2. unfold earlier. apply _. Defined.

(** SELECT * FROM lecturas_sensores ORDER BY timestamp_lectura ASC: the rows
    of the table, sorted; rows with equal timestamps come in the order the
    scan of the table delivers them. *)
Definition select_ordered (db : list reading) : list reading :=
  merge_sort earlier (seq_scan db).

(** The body of a response of the endpoint: the JSON array of the rows, or
    a JSON object. *)
Inductive lecturas_body :=
  | JsonRows (data : list reading)
  | JsonObject (d : gmap string pyval).

Record lecturas_response := LecturasResponse {
  lecturas_status : Z;
  lecturas_json : lecturas_body;
}.

(** The body of the [try] (lines 170-179): its result, whether [conn] was
    assigned, and the calls made.  [cursor.close()] and [jsonify] of rows
    are taken not to raise. *)
Definition get_lecturas_try (fault : read_op -> option exn) (db : list reading)
    : result (list reading) * bool * list read_op :=
  match fault RdConnect with
  | Some e => (Raise e, false, [RdConnect])
  | None =>
  match fault RdCursor with
  | Some e => (Raise e, true, [RdConnect; RdCursor])
  | None =>
  match fault RdExecute with
  | Some e => (Raise e, true, [RdConnect; RdCursor; RdExecute])
  | None =>
  match fault RdFetchall with
  | Some e => (Raise e, true, [RdConnect; RdCursor; RdExecute; RdFetchall])
  | None =>
      (Ok (select_ordered db), true, [RdConnect; RdCursor; RdExecute; RdFetchall])
  end end end end.

(** [get_lecturas]: the response and the calls made on PostgreSQL. *)
Definition get_lecturas (fault : read_op -> option exn) (db : list reading)
    : lecturas_response * list read_op :=
  let '(r, conn, calls) := get_lecturas_try fault db in
  let response :=
    match r with
    | Ok data => LecturasResponse 200 (JsonRows data)
    | Raise e =>
        LecturasResponse 500 (JsonObject (dict [
          entry "error" (PyStr ("Error en la base de datos local: " +:+ exn_msg e))]))
    end in
  (response, if conn then calls ++ [RdClose] else calls).

End Read.
(** * Vocabulary of the properties *)

Section ScanVocabulary.
Context `{PyNumeric}.

(** The items of one page: [response.get('Items', [])]. *)
Definition page_items (r : scan_response) : list (gmap string pyval) :=
  default [] (Items r).

(** The chain of responses that starts at the request with start key [k]:
    the pages obtained by following the continuation keys, ending either at a
    response without ['LastEvaluatedKey'] or at a request that fails. *)
Inductive scan_chain (w : world) :
    option (gmap string pyval) -> list scan_response -> option exn -> Prop :=
  | chain_last k r :
      dynamo_scan w k = Ok r -> LastEvaluatedKey r = None ->
      scan_chain w k [r] None
  | chain_fail k e :
      dynamo_scan w k = Raise e ->
      scan_chain w k [] (Some e)
  | chain_next k r k' rs o :
      dynamo_scan w k = Ok r -> LastEvaluatedKey r = Some k' ->
      scan_chain w (Some k') rs o ->
      scan_chain w k (r :: rs) o.

(** The requests that fetch the pages [rs], the first with start key [k]. *)
Fixpoint requests (k : option (gmap string pyval)) (rs : list scan_response)
    : list (option (gmap string pyval)) :=
  match rs with
  | [] => []
  | r :: rs' => k :: requests (LastEvaluatedKey r) rs'
  end.

(** The optional fields that are coerced with [float]. *)
Definition float_fields : list string :=
  ["temperatura" : string; "humedad" : string; "distancia_cm" : string].

(** The optional fields that are coerced to a number. *)
Definition numeric_fields : list string :=
  float_fields ++ ["luz_porcentaje" : string].

(** [x] is the integer part of the decimal number [d], which is
    [d_coef d] times ten to the [d_exp d]: the number itself when it has no
    fraction digits, otherwise the integer next to it towards zero. *)
Definition integer_part (d : decimal) (x : Z) : Prop :=
  (0 <= d_exp d -> x = d_coef d * 10 ^ d_exp d)
  /\ (d_exp d < 0 ->
      Z.abs x * 10 ^ (- d_exp d) <= Z.abs (d_coef d) < (Z.abs x + 1) * 10 ^ (- d_exp d)
      /\ (0 <= d_coef d -> 0 <= x)
      /\ (d_coef d <= 0 -> x <= 0)).

(** The value [x] that normalisation gives the optional field [k]: the
    default when the item lacks the field, else the coercion of what the item
    holds. *)
Definition field_value {A : Type} (item : gmap string pyval) (k : string)
    (coerce : pyval -> result A) (default : A) (x : A) : Prop :=
  match item !! k with
  | None => x = default
  | Some v => coerce v = Ok x
  end.

End ScanVocabulary.

Section MergeVocabulary.
Context `{Postgres}.

(** The calls the [try] block makes, in order. *)
Definition merge_calls : list pg_op :=
  [OpConnect; OpCursor; OpCreateTemp; OpStage; OpMove; OpCommit].

(** The contents of [temp_lecturas] once the batch is staged. *)
Definition staging (datos_para_insertar : list prepared) : result (list staged) :=
  rows ← rmap stage_row datos_para_insertar;
  res ← insert_rows s_id_lectura OnConflictDoNothing [] rows;
  Ok res.1.

(** The rows the SELECT of [insert_final_query] produces. *)
Definition selected (datos_para_insertar : list prepared) : result (list reading) :=
  tmp ← staging datos_para_insertar;
  rmap convert_row (seq_scan tmp).

(** The reading id of a prepared row as the permanent table stores it. *)
Definition reading_id (t : prepared) : option uuid :=
  match adapt_varchar 255 (t_id_lectura t) with
  | Some (Some s) => cast_uuid s
  | _ => None
  end.

(** The number of rows of the permanent table that carry the id [u]. *)
Definition persisted (u : uuid) (db : list reading) : nat :=
  length (filter (fun r => id_lectura r = u) db).


(** The status of a result dictionary. *)
Definition status (ret : gmap string pyval) : option pyval := ret !! "status".

End MergeVocabulary.

(** The calls the [try] block of [get_lecturas] makes, in order. *)
Definition read_calls : list read_op :=
  [RdConnect; RdCursor; RdExecute; RdFetchall].

(** * Proof automation *)

(** Unfolds the merge down to the calls it makes. *)
Ltac merge_unfold :=
  unfold merge, merge_try, rollback, get_db_connection, execute_temp_table_query,
    execute_insert_temp_query, execute_insert_final_query, commit, call, begin,
    publish, on_session, undo, close, record;
  unfold mbind, mret, M_bind, M_ret; simpl.

(** Closes the case of a merge that failed at the last of the calls [ops]. *)
Ltac error_leaf e ops cause :=
  destruct (pg_fault _ OpRollback); simpl;
  (intros [= <- <- <-]; right; exists e, ops;
   split_and!;
     [try rewrite decide_False by done; done | done | cause | by eexists
     | by (done || intros [=])
     | try rewrite decide_False by done; by rewrite <- ?app_assoc
     | by (done || (let Hne := fresh in intros Hne; by destruct Hne))]).

(** Refutes the membership [Hin] of a call in a list of other calls. *)
Ltac not_among Hin :=
  repeat (apply elem_of_cons in Hin as [[=]|Hin]); by apply elem_of_nil in Hin.

(** Closes the case of a merge that failed after the calls [ops]. *)
Ltac failed_after ops :=
  destruct (pg_fault _ OpRollback); simpl;
  (intros [= <- <- <-]; right; split; [done|]; left; exists ops;
   split_and!;
     [ by eexists | done | by rewrite <- ?app_assoc | by eauto
     | first [ done | let Hin := fresh in intros Hin; not_among Hin ] ]).

(** * A concrete environment

    An instance of each interface and a few source tables, on which the
    definitions above can be run. *)

Module Fixture.

(** Floats without rounding: a float is the decimal it was made from. *)
Fixpoint digits (s : string) (acc : Z) : option Z :=
  match s with
  | EmptyString => Some acc
  | String c s' =>
      let n := Z.of_nat (Ascii.nat_of_ascii c) - 48 in
      if bool_decide (0 <= n <= 9) then digits s' (10 * acc + n) else None
  end.

Definition parse_int (s : string) : option Z :=
  match s with
  | EmptyString => None
  | String c s' =>
      if bool_decide (Ascii.nat_of_ascii c = 45%nat) then
        (if bool_decide (s' = EmptyString) then None else Z.opp <$> digits s' 0)
      else digits s 0
  end.

#[global] Instance exact_numeric : PyNumeric := {|
  pyfloat := decimal;
  float_zero := Decimal 0 0;
  float_of_Z z := Some (Decimal z 0);
  float_of_decimal d := d;
  float_of_str s := (fun z => Decimal z 0) <$> parse_int s;
  int_of_float d := Some (decimal_trunc d);
  int_of_str := parse_int;
|}.

(** UUIDs in their canonical text: 8-4-4-4-12 hexadecimal digits, letters
    in lower case. *)
Definition is_hex (c : Ascii.ascii) : bool :=
  let n := Ascii.nat_of_ascii c in
  bool_decide (48 <= n <= 57 \/ 65 <= n <= 70 \/ 97 <= n <= 102)%nat.

Definition lower (c : Ascii.ascii) : Ascii.ascii :=
  let n := Ascii.nat_of_ascii c in
  if bool_decide (65 <= n <= 70)%nat then Ascii.ascii_of_nat (n + 32) else c.

Fixpoint uuid_text (pos : nat) (s : string) : option string :=
  match s with
  | EmptyString => if bool_decide (pos = 36%nat) then Some EmptyString else None
  | String c s' =>
      if bool_decide (pos ∈ [8; 13; 18; 23]%nat) then
        (if bool_decide (Ascii.nat_of_ascii c = 45%nat) then String c <$> uuid_text (S pos) s' else None)
      else
        (if is_hex c then String (lower c) <$> uuid_text (S pos) s' else None)
  end.

Definition varchar (n : nat) (v : pyval) : option (option string) :=
  match v with
  | PyNone => Some None
  | PyStr s => if bool_decide (String.length s <= n)%nat then Some (Some s) else None
  | _ => None
  end.

#[global] Instance plain_postgres : Postgres := {|
  uuid := string;
  numeric := decimal;
  timestamptz := Z;
  cast_uuid := uuid_text 0;
  to_timestamp z := Some z;
  adapt_varchar := varchar;
  adapt_numeric _ _ d := Some d;
  seq_scan _ l := l;
  seq_scan_perm _ l := reflexivity l;
|}.

#[global] Instance plain_order : TimestampOrder := {| ts_le := Z.le |}.

Definition num (z : Z) : pyval := PyDecimal (Decimal z 0).

Definition id_a1 : string := "a1a1a1a1-0000-4000-8000-000000000001".
Definition id_a2 : string := "a2a2a2a2-0000-4000-8000-000000000002".
Definition id_a3 : string := "a3a3a3a3-0000-4000-8000-000000000003".

(** A complete reading. *)
Definition item_a1 : gmap string pyval := dict [
  entry "id_lectura" (PyStr id_a1); entry "device_id" (PyStr "d1");
  entry "temperatura" (PyDecimal (Decimal 225 (-1))); entry "humedad" (num 55);
  entry "distancia_cm" (num 10); entry "luz_porcentaje" (num 80);
  entry "estado_luz" (PyStr "on"); entry "timestamp" (num 1700000000)].

(** A reading without its optional fields. *)
Definition item_a2 : gmap string pyval := dict [
  entry "id_lectura" (PyStr id_a2); entry "device_id" (PyStr "d1");
  entry "timestamp" (num 1700000060)].

(** A reading without its timestamp. *)
Definition item_a3 : gmap string pyval := dict [
  entry "id_lectura" (PyStr id_a3); entry "device_id" (PyStr "d1");
  entry "temperatura" (num 20)].

(** A reading whose humidity is held as a null. *)
Definition item_null : gmap string pyval := dict [
  entry "id_lectura" (PyStr id_a3); entry "humedad" PyNone;
  entry "timestamp" (num 1700000120)].

(** A reading whose timestamp and light percentage have a fraction. *)
Definition item_fraction : gmap string pyval := dict [
  entry "id_lectura" (PyStr id_a3);
  entry "luz_porcentaje" (PyDecimal (Decimal 807 (-1)));
  entry "timestamp" (PyDecimal (Decimal 17000001209 (-1)))].

Definition no_fault : pg_op -> option exn := fun _ => None.

Definition no_read_fault : read_op -> option exn := fun _ => None.

Definition read_fault_at (op : read_op) (msg : string) : read_op -> option exn :=
  fun op' => if decide (op' = op) then Some (Exn OperationalError msg) else None.

Definition fault_at (op : pg_op) (msg : string) : pg_op -> option exn :=
  fun op' => if decide (op' = op) then Some (Exn OperationalError msg) else None.

(** A source table that answers with all its items in one page. *)
Definition one_page (items : list (gmap string pyval)) : option (gmap string pyval)
    -> result scan_response :=
  fun _ => Ok (ScanResponse (Some items) None).

(** A source table that throttles every request. *)
Definition unavailable : option (gmap string pyval) -> result scan_response :=
  fun _ => Raise (Exn ClientError "ProvisionedThroughputExceededException").

(** A source table whose every response carries a continuation key. *)
Definition endless : option (gmap string pyval) -> result scan_response :=
  fun _ => Ok (ScanResponse (Some [item_a1]) (Some (dict [entry "page" (PyInt 0)]))).

(** A source table of 250 items that answers in three pages. *)
Definition page_key (n : Z) : gmap string pyval := dict [entry "page" (PyInt n)].

Definition three_pages : option (gmap string pyval) -> result scan_response :=
  fun k =>
    match k with
    | None => Ok (ScanResponse (Some (replicate 100 item_a1)) (Some (page_key 1)))
    | Some key =>
        match key !! "page" with
        | Some (PyInt 1) =>
            Ok (ScanResponse (Some (replicate 100 item_a2)) (Some (page_key 2)))
        | _ => Ok (ScanResponse (Some (replicate 50 item_a1)) None)
        end
    end.

Definition page1 : scan_response :=
  ScanResponse (Some (replicate 100 item_a1)) (Some (page_key 1)).
Definition page2 : scan_response :=
  ScanResponse (Some (replicate 100 item_a2)) (Some (page_key 2)).
Definition page3 : scan_response :=
  ScanResponse (Some (replicate 50 item_a1)) None.

(** The environments of the examples. *)
Definition w_three_pages : world := World three_pages no_fault.
Definition w_batch : world := World (one_page [item_a1; item_a1; item_a2]) no_fault.
Definition w_endless : world := World endless no_fault.
Definition w_empty : world := World (one_page []) no_fault.
Definition w_unavailable : world := World unavailable no_fault.
Definition w_malformed : world := World (one_page [item_a2; item_a3]) no_fault.
Definition w_commit_fails : world :=
  World (one_page [item_a1; item_a2]) (fault_at OpCommit "server closed the connection").

(** The server drops the connection while the transaction commits: the
    commit fails, and so does the rollback asked of the lost connection. *)
Definition connection_lost : pg_op -> option exn := fun op =>
  match op with
  | OpCommit => Some (Exn OperationalError "server closed the connection unexpectedly")
  | OpRollback => Some (Exn InterfaceError "connection already closed")
  | _ => None
  end.

Definition w_connection_lost : world :=
  World (one_page [item_a1; item_a2]) connection_lost.

(** The rows prepared from [item_a1] and [item_a2]. *)
Definition row_a1 : prepared :=
  Prepared (PyStr id_a1) (PyStr "d1") (Decimal 225 (-1)) (Decimal 55 0) (Decimal 10 0)
           80 (PyStr "on") 1700000000.
Definition row_a2 : prepared :=
  Prepared (PyStr id_a2) (PyStr "d1") (Decimal 0 0) (Decimal 0 0) (Decimal 0 0)
           0 PyNone 1700000060.

(** The row prepared from [item_fraction]. *)
Definition row_fraction : prepared :=
  Prepared (PyStr id_a3) PyNone (Decimal 0 0) (Decimal 0 0) (Decimal 0 0)
           80 PyNone 1700000120.

(** A row whose id is not the text of a uuid. *)
Definition row_bad : prepared :=
  Prepared (PyStr "lectura-17") (PyStr "d1") (Decimal 0 0) (Decimal 0 0) (Decimal 0 0)
           0 PyNone 1700000180.

(** The row of [item_a1] with its id in upper case, an hour later. *)
Definition row_a1_upper : prepared :=
  Prepared (PyStr "A1A1A1A1-0000-4000-8000-000000000001") (PyStr "d2") (Decimal 0 0)
           (Decimal 0 0) (Decimal 0 0) 0 PyNone 1700003600.

(** The rows the temporary table holds for [row_a1] and [row_a2]. *)
Definition staged_a1 : staged :=
  Staged id_a1 (Some "d1") (Decimal 225 (-1)) (Decimal 55 0) (Decimal 10 0)
         80 (Some "on") 1700000000.
Definition staged_a2 : staged :=
  Staged id_a2 (Some "d1") (Decimal 0 0) (Decimal 0 0) (Decimal 0 0)
         0 None 1700000060.

(** The rows the permanent table holds for them. *)
Definition reading_a1 : reading :=
  Reading id_a1 (Some "d1") (Decimal 225 (-1)) (Decimal 55 0) (Decimal 10 0)
          80 (Some "on") 1700000000.
Definition reading_a2 : reading :=
  Reading id_a2 (Some "d1") (Decimal 0 0) (Decimal 0 0) (Decimal 0 0)
          0 None 1700000060.

End Fixture.

(** * Properties *)

Section ScanProperties.
Context `{PyNumeric}.

Lemma requests_length k rs : length (requests k rs) = length rs.
Proof. revert k. induction rs as [|r rs IH]; intros k; simpl; [done|]. by rewrite IH. Qed.

(** The loop adds scan events to the log, and nothing else. *)
Lemma scan_loop_log w fuel : forall k items lg out lg',
  scan_loop w fuel k items lg = Some (out, lg') ->
  exists evs, lg' = lg ++ evs /\ Forall (fun ev => is_scan ev = true) evs.
Proof.
  induction fuel as [|fuel IH]; intros k items lg out lg' Hrun; simpl in Hrun; [done|].
  destruct (dynamo_scan w k) as [r|e].
  - destruct (LastEvaluatedKey r) as [k'|].
    + apply IH in Hrun as (evs & -> & Hevs).
      exists (EvScan k :: evs). split; [by rewrite <- app_assoc|].
      by constructor.
    + injection Hrun as <- <-. exists [EvScan k]. split; [done|]. by repeat constructor.
  - injection Hrun as <- <-. exists [EvScan k]. split; [done|]. by repeat constructor.
Qed.

(** Along a chain that ends, the loop leaves after one request per page with
    all the items of all the pages. *)
Lemma scan_loop_complete w k rs :
  scan_chain w k rs None ->
  forall fuel items lg, (length rs <= fuel)%nat ->
  scan_loop w fuel k items lg
  = Some (Ok (items ++ concat (page_items <$> rs)), lg ++ (EvScan <$> requests k rs)).
Proof.
  intros Hchain. remember None as o eqn:Ho.
  induction Hchain as [k r Hr Hlast|k e Hr|k r k' rs o Hr Hnext Hchain IH];
    intros fuel items lg Hfuel; [|done|].
  - destruct fuel as [|fuel]; simpl in *; [lia|].
    rewrite Hr, Hlast. by rewrite app_nil_r.
  - destruct fuel as [|fuel]; simpl in *; [lia|].
    rewrite Hr, Hnext, IH by (done || lia).
    unfold page_items. by rewrite <- !app_assoc.
Qed.

(** Fewer iterations than pages do not leave the loop. *)
Lemma scan_loop_short w k rs :
  scan_chain w k rs None ->
  forall fuel items lg, (fuel < length rs)%nat ->
  scan_loop w fuel k items lg = None.
Proof.
  intros Hchain. remember None as o eqn:Ho.
  induction Hchain as [k r Hr Hlast|k e Hr|k r k' rs o Hr Hnext Hchain IH];
    intros fuel items lg Hfuel; [|done|].
  - destruct fuel as [|fuel]; simpl in *; [done|lia].
  - destruct fuel as [|fuel]; simpl in *; [done|].
    rewrite Hr, Hnext. apply IH; [done|lia].
Qed.

(** Along a chain that ends in a failing request, the loop raises. *)
Lemma scan_loop_fails w k rs e :
  scan_chain w k rs (Some e) ->
  forall fuel items lg, (length rs < fuel)%nat ->
  exists lg', scan_loop w fuel k items lg = Some (Raise e, lg').
Proof.
  intros Hchain. remember (Some e) as o eqn:Ho.
  induction Hchain as [k r Hr Hlast|k e' Hr|k r k' rs o Hr Hnext Hchain IH];
    intros fuel items lg Hfuel; [done| |].
  - injection Ho as ->. destruct fuel as [|fuel]; simpl in *; [lia|].
    rewrite Hr. eauto.
  - destruct fuel as [|fuel]; simpl in *; [lia|].
    rewrite Hr, Hnext. apply IH; [done|lia].
Qed.

(** The scan along a chain that ends. *)
Lemma scan_all_chain w rs fuel :
  scan_chain w None rs None -> (length rs <= fuel)%nat ->
  scan_all w fuel
  = Some (Ok (concat (page_items <$> rs)), EvScan <$> requests None rs).
Proof.
  intros Hchain Hfuel. unfold scan_all.
  by rewrite (scan_loop_complete _ _ _ Hchain).
Qed.

Lemma length_all_items (rs : list scan_response) :
  length (concat (page_items <$> rs))
  = sum_list_with (fun r => length (page_items r)) rs.
Proof.
  induction rs as [|r rs IH]; [done|].
  rewrite fmap_cons. cbn [concat sum_list_with]. by rewrite length_app, IH.
Qed.

(** C4. For a source table whose responses form a finite chain of pages,
    each carrying the continuation key the next request uses until a
    response carries none, the scan returns the concatenation of the items
    of all the pages: it returns them as soon as the loop is given one
    iteration per page, and whatever it returns is that whole list, never
    the items of a part of the pages.  Its length is the sum of the page
    sizes (250 items in three pages give 250 items). *)
Theorem scan_all_complete w rs :
  scan_chain w None rs None ->
  (forall fuel, (length rs <= fuel)%nat ->
     exists lg, scan_all w fuel = Some (Ok (concat (page_items <$> rs)), lg))
  /\ (forall fuel items lg,
       scan_all w fuel = Some (Ok items, lg) -> items = concat (page_items <$> rs))
  /\ length (concat (page_items <$> rs))
     = sum_list_with (fun r => length (page_items r)) rs.
Proof.
  intros Hchain. split_and!.
  - intros fuel Hfuel. unfold scan_all.
    rewrite (scan_loop_complete _ _ _ Hchain) by done. by eexists.
  - intros fuel items lg. unfold scan_all.
    destruct (decide (length rs <= fuel)%nat) as [Hfuel|Hfuel].
    + rewrite (scan_loop_complete _ _ _ Hchain) by done. by intros [= <- _].
    + rewrite (scan_loop_short _ _ _ Hchain) by lia. done.
  - apply length_all_items.
Qed.

(** C10. The pagination loop terminates on every source table whose chain
    of responses is finite: with one iteration per page the loop has left,
    it has issued exactly one scan request per page - the first without
    start key, each next one with the continuation key of the page before -
    and with fewer iterations it has not left yet. *)
Theorem scan_all_terminates w rs :
  scan_chain w None rs None ->
  (forall fuel, (length rs <= fuel)%nat ->
     exists items, scan_all w fuel = Some (Ok items, EvScan <$> requests None rs))
  /\ length (EvScan <$> requests None rs) = length rs
  /\ (forall fuel, (fuel < length rs)%nat -> scan_all w fuel = None).
Proof.
  intros Hchain. split_and!.
  - intros fuel Hfuel. unfold scan_all.
    rewrite (scan_loop_complete _ _ _ Hchain) by done. by eexists.
  - by rewrite length_fmap, requests_length.
  - intros fuel Hfuel. by apply (scan_loop_short _ _ _ Hchain).
Qed.

End ScanProperties.

Lemma three_pages_chain :
  scan_chain Fixture.w_three_pages None
    [Fixture.page1; Fixture.page2; Fixture.page3] None.
Proof.
  eapply chain_next; [reflexivity|reflexivity|].
  eapply chain_next; [reflexivity|reflexivity|].
  by eapply chain_last.
Qed.

Lemma one_page_chain items faults :
  scan_chain (World (Fixture.one_page items) faults) None
    [ScanResponse (Some items) None] None.
Proof. by eapply chain_last. Qed.

Lemma unavailable_chain :
  scan_chain Fixture.w_unavailable None []
    (Some (Exn ClientError "ProvisionedThroughputExceededException")).
Proof. by eapply chain_fail. Qed.

(** The source table of 250 items in three pages: all 250 are returned. *)
Lemma scan_all_complete_witness :
  exists items lg,
    scan_all Fixture.w_three_pages 3 = Some (Ok items, lg)
    /\ length items = 250%nat.
Proof.
  destruct (scan_all_complete _ _ three_pages_chain) as (Hall & _ & Hlen).
  destruct (Hall 3%nat) as [lg Hlg]; [simpl; lia|].
  exists (concat (page_items <$> [Fixture.page1; Fixture.page2; Fixture.page3])), lg.
  split; [exact Hlg|]. rewrite Hlen. reflexivity.
Defined.

Lemma scan_all_terminates_witness :
  (exists items,
     scan_all Fixture.w_three_pages 3
     = Some (Ok items, EvScan <$> [None; Some (Fixture.page_key 1);
                                   Some (Fixture.page_key 2)]))
  /\ scan_all Fixture.w_three_pages 2 = None.
Proof.
  destruct (scan_all_terminates _ _ three_pages_chain) as (Hleft & _ & Hshort).
  split; [apply (Hleft 3%nat); simpl; lia | apply (Hshort 2%nat); simpl; lia].
Defined.

Section Rmap.
Context {A B : Type} (f : A -> result B).

Lemma rmap_ok_inv (xs : list A) : forall ys,
  rmap f xs = Ok ys -> Forall2 (fun x y => f x = Ok y) xs ys.
Proof.
  induction xs as [|x xs IH]; intros ys Hys; simpl in Hys.
  - injection Hys as <-. constructor.
  - destruct (f x) as [y|e] eqn:Hx; simpl in Hys; [|done].
    destruct (rmap f xs) as [ys'|e] eqn:Hxs; simpl in Hys; [|done].
    injection Hys as <-. constructor; [done|]. by apply IH.
Qed.

Lemma rmap_ok_elem (xs : list A) ys x :
  rmap f xs = Ok ys -> x ∈ xs -> exists y, y ∈ ys /\ f x = Ok y.
Proof.
  intros Hys%rmap_ok_inv Hx.
  destruct (proj1 (list_elem_of_lookup xs x) Hx) as [i Hi].
  destruct (Forall2_lookup_l _ _ _ _ _ Hys Hi) as (y & Hy & Hfx).
  exists y. split; [|done]. by eapply list_elem_of_lookup_2.
Qed.

Lemma rmap_raise_inv (xs : list A) e :
  rmap f xs = Raise e -> exists x, x ∈ xs /\ f x = Raise e.
Proof.
  induction xs as [|x xs IH]; simpl; [done|].
  destruct (f x) as [y|e'] eqn:Hx; simpl.
  - destruct (rmap f xs) as [ys'|e''] eqn:Hxs; simpl; [done|].
    intros [= ->]. destruct IH as (x' & ? & ?); [done|]. exists x'. split; [by right|done].
  - intros [= ->]. exists x. split; [by left|done].
Qed.

(** A loop over a list with an element on which the body raises, raises. *)
Lemma rmap_raises (xs : list A) x e :
  x ∈ xs -> f x = Raise e -> exists e', rmap f xs = Raise e'.
Proof.
  induction xs as [|x' xs IH]; intros Hin Hx; [by apply elem_of_nil in Hin|].
  simpl. destruct (f x') as [y|e'] eqn:Hx'; simpl; [|by eauto].
  apply elem_of_cons in Hin as [->|Hin]; [congruence|].
  destruct (IH Hin Hx) as [e'' ->]. simpl. by eauto.
Qed.

End Rmap.

Section InsertRows.
Context {R K : Type} `{EqDecision K} (pk : R -> K).

(** Under ON CONFLICT DO NOTHING an INSERT never fails: it appends the rows
    whose key is new, in order, and every key of the batch ends up in the
    table exactly once. *)
Lemma insert_rows_do_nothing (new : list R) : forall tbl : list R,
  exists added,
    insert_rows pk OnConflictDoNothing tbl new = Ok (tbl ++ added, length added)
    /\ (forall r, r ∈ added -> r ∈ new /\ pk r ∉ pk <$> tbl)
    /\ (forall r, r ∈ new -> pk r ∈ pk <$> (tbl ++ added))
    /\ (NoDup (pk <$> tbl) -> NoDup (pk <$> (tbl ++ added))).
Proof.
  induction new as [|r new IH]; intros tbl; simpl.
  - exists []. rewrite app_nil_r. split_and!; [done| |by intros r ?%elem_of_nil|done].
    by intros r ?%elem_of_nil.
  - destruct (decide (pk r ∈ pk <$> tbl)) as [Hin|Hnin].
    + destruct (IH tbl) as (added & -> & Hadd & Hall & Hnd).
      exists added. split_and!; [done| | |done].
      * intros r' Hr'. destruct (Hadd r' Hr') as [? ?]. split; [by right|done].
      * intros r' [->|Hr']%elem_of_cons; [|by apply Hall].
        rewrite fmap_app. apply elem_of_app. by left.
    + destruct (IH (tbl ++ [r])) as (added & -> & Hadd & Hall & Hnd).
      exists (r :: added). simpl. rewrite <- app_assoc. simpl.
      split_and!; [done| | |].
      * intros r' [->|Hr']%elem_of_cons; [split; [by left|done]|].
        destruct (Hadd r' Hr') as [? Hn]. split; [by right|].
        rewrite fmap_app in Hn. intros ?. apply Hn, elem_of_app. by left.
      * intros r' [->|Hr']%elem_of_cons.
        -- rewrite fmap_app, fmap_cons. apply elem_of_app. right. by left.
        -- specialize (Hall r' Hr'). by rewrite <- app_assoc in Hall.
      * intros Hnodup. rewrite <- app_assoc in Hnd. apply Hnd.
        rewrite fmap_app. apply NoDup_app. split_and!; [done| |by apply NoDup_singleton].
        intros k Hk [->|[]%elem_of_nil]%elem_of_cons. done.
Qed.

(** A batch whose keys are all in the table already inserts nothing. *)
Lemma insert_rows_present (new tbl : list R) :
  (forall r, r ∈ new -> pk r ∈ pk <$> tbl) ->
  insert_rows pk OnConflictDoNothing tbl new = Ok (tbl, 0%nat).
Proof.
  induction new as [|r new IH]; intros Hall; simpl; [done|].
  rewrite decide_True by (apply Hall; by left).
  apply IH. intros r' Hr'. apply Hall. by right.
Qed.

End InsertRows.

Section MergeProperties.
Context `{Postgres}.

Lemma status_success n : status (success n) = Some (PyStr "success").
Proof. reflexivity. Qed.

Lemma status_error_postgres e : status (error_postgres e) = Some (PyStr "error_postgres").
Proof. reflexivity. Qed.


Lemma returned_inj {A} (x y : A) : Returned x = Returned y -> x = y.
Proof. by intros [=]. Qed.

Lemma error_postgres_not_success e n : Returned (error_postgres e) <> Returned (success n).
Proof.
  intros Heq%returned_inj. apply (f_equal status) in Heq.
  by rewrite status_error_postgres, status_success in Heq.
Qed.


(** What a merge can do, by cases: either no call fails and no row is
    refused, the rows selected from staging are inserted and committed; or
    the first failure ends the attempt with the permanent table as it was,
    and the handler returns the error result unless its rollback raises. *)
Lemma merge_inv w datos db lg out db' lg' :
  merge w datos db lg = (out, db', lg') ->
  (exists rows n,
      (forall op, op ∈ merge_calls -> pg_fault w op = None)
      /\ selected datos = Ok rows
      /\ insert_rows id_lectura OnConflictDoNothing db rows = Ok (db', n)
      /\ out = Returned (success n)
      /\ lg' = lg ++ (EvPg <$> merge_calls ++ [OpClose]))
  \/ (exists e ops,
      out = (if decide (ops = [OpConnect]) then Returned (error_postgres e)
             else match pg_fault w OpRollback with
                  | None => Returned (error_postgres e)
                  | Some e' => Raised e'
                  end)
      /\ db' = db
      /\ ((exists op, op ∈ merge_calls /\ pg_fault w op = Some e) \/ selected datos = Raise e)
      /\ ops `prefix_of` merge_calls
      /\ (ops = [OpConnect] -> pg_fault w OpConnect = Some e)
      /\ lg' = lg ++ (EvPg <$> ops)
                  ++ (if decide (ops = [OpConnect]) then []
                      else EvPg <$> [OpRollback; OpClose])
      /\ (ops <> [OpConnect] -> pg_fault w OpConnect = None)).
Proof.
  merge_unfold.
  destruct (pg_fault w OpConnect) as [e|] eqn:Hconnect; simpl.
  { error_leaf e [OpConnect] ltac:(left; exists OpConnect; split; [by repeat constructor|done]). }
  destruct (pg_fault w OpCursor) as [e|] eqn:Hcursor; simpl.
  { error_leaf e [OpConnect; OpCursor]
      ltac:(left; exists OpCursor; split; [by repeat constructor|done]). }
  destruct (pg_fault w OpCreateTemp) as [e|] eqn:Hcreate; simpl.
  { error_leaf e [OpConnect; OpCursor; OpCreateTemp]
      ltac:(left; exists OpCreateTemp; split; [by repeat constructor|done]). }
  destruct (pg_fault w OpStage) as [e|] eqn:Hstage; simpl.
  { error_leaf e [OpConnect; OpCursor; OpCreateTemp; OpStage]
      ltac:(left; exists OpStage; split; [by repeat constructor|done]). }
  destruct (rmap stage_row datos) as [srows|e] eqn:Hsrows; simpl.
  2: { error_leaf e [OpConnect; OpCursor; OpCreateTemp; OpStage]
         ltac:(right; unfold selected, staging; by rewrite Hsrows). }
  destruct (insert_rows s_id_lectura OnConflictDoNothing [] srows) as [[tmp ntmp]|e]
    eqn:Htmp; simpl.
  2: { error_leaf e [OpConnect; OpCursor; OpCreateTemp; OpStage]
         ltac:(right; unfold selected, staging; rewrite Hsrows; simpl; by rewrite Htmp). }
  destruct (pg_fault w OpMove) as [e|] eqn:Hmove; simpl.
  { error_leaf e [OpConnect; OpCursor; OpCreateTemp; OpStage; OpMove]
      ltac:(left; exists OpMove; split; [by repeat constructor|done]). }
  assert (Hsel : selected datos = rmap convert_row (seq_scan tmp)).
  { unfold selected, staging. rewrite Hsrows. simpl. by rewrite Htmp. }
  destruct (rmap convert_row (seq_scan tmp)) as [rows|e] eqn:Hrows; simpl.
  2: { error_leaf e [OpConnect; OpCursor; OpCreateTemp; OpStage; OpMove]
         ltac:(by right). }
  destruct (insert_rows id_lectura OnConflictDoNothing db rows) as [[tbl n]|e]
    eqn:Hins; simpl.
  2: { destruct (insert_rows_do_nothing id_lectura rows db) as (? & Hok & _).
       congruence. }
  destruct (pg_fault w OpCommit) as [e|] eqn:Hcommit; simpl.
  { error_leaf e merge_calls ltac:(left; exists OpCommit; split; [by repeat constructor|done]). }
  intros [= <- <- <-]. left. exists rows, n. split_and!; [|done|done|done|].
  - intros op Hop. unfold merge_calls in Hop.
    repeat (apply elem_of_cons in Hop as [->|Hop]; [done|]). by apply elem_of_nil in Hop.
  - by rewrite <- !app_assoc.
Qed.

(** A merge that returns. *)
Lemma merge_returned_inv w datos db lg ret db' lg' :
  merge w datos db lg = (Returned ret, db', lg') ->
  (exists rows n,
      (forall op, op ∈ merge_calls -> pg_fault w op = None)
      /\ selected datos = Ok rows
      /\ insert_rows id_lectura OnConflictDoNothing db rows = Ok (db', n)
      /\ ret = success n
      /\ lg' = lg ++ (EvPg <$> merge_calls ++ [OpClose]))
  \/ (exists e ops,
      ret = error_postgres e /\ db' = db
      /\ ((exists op, op ∈ merge_calls /\ pg_fault w op = Some e) \/ selected datos = Raise e)
      /\ ops `prefix_of` merge_calls
      /\ (ops = [OpConnect] -> pg_fault w OpConnect = Some e)
      /\ lg' = lg ++ (EvPg <$> ops)
                  ++ (if decide (ops = [OpConnect]) then []
                      else EvPg <$> [OpRollback; OpClose])).
Proof.
  intros Hrun.
  destruct (merge_inv _ _ _ _ _ _ _ Hrun)
    as [(rows & n & Hnf & Hsel & Hins & [= ->] & ->)
       |(e & ops & Hout & -> & Hcause & Hpre & Hconn & -> & _)].
  - left. by exists rows, n.
  - right. exists e, ops. split_and!; try done.
    destruct (decide (ops = [OpConnect])); [by injection Hout|].
    destruct (pg_fault w OpRollback); [done|by injection Hout].
Qed.

(** *** The path of the data through the two tables *)

Lemma stage_row_id t s :
  stage_row t = Ok s ->
  adapt_varchar 255 (t_id_lectura t) = Some (Some (s_id_lectura s)).
Proof.
  unfold stage_row, of_option, data_error. intros Hs.
  repeat (case_match; simpl in Hs; try discriminate Hs).
  by injection Hs as <-.
Qed.

Lemma stage_row_raise t e :
  stage_row t = Raise e -> exn_cls e <> UniqueViolation.
Proof.
  unfold stage_row, of_option, data_error. intros Hs.
  repeat (case_match; simpl in Hs; try discriminate Hs);
    by injection Hs as <-.
Qed.

Lemma convert_row_id s r :
  convert_row s = Ok r -> cast_uuid (s_id_lectura s) = Some (id_lectura r).
Proof.
  unfold convert_row, of_option, data_error. intros Hr.
  repeat (case_match; simpl in Hr; try discriminate Hr).
  by injection Hr as <-.
Qed.

Lemma convert_row_raise s e :
  convert_row s = Raise e -> exn_cls e <> UniqueViolation.
Proof.
  unfold convert_row, of_option, data_error. intros Hr.
  repeat (case_match; simpl in Hr; try discriminate Hr);
    by injection Hr as <-.
Qed.

(** What [selected] is made of. *)
Lemma selected_ok_inv datos rows :
  selected datos = Ok rows ->
  exists srows tmp,
    rmap stage_row datos = Ok srows
    /\ (forall s, s ∈ srows -> s_id_lectura s ∈ s_id_lectura <$> tmp)
    /\ rmap convert_row (seq_scan tmp) = Ok rows.
Proof.
  unfold selected, staging. intros Hsel.
  destruct (rmap stage_row datos) as [srows|e] eqn:Hsrows; simpl in Hsel; [|done].
  destruct (insert_rows_do_nothing s_id_lectura srows []) as (tmp & Htmp & _ & Hall & _).
  rewrite Htmp in Hsel. simpl in Hsel.
  exists srows, tmp. by split_and!.
Qed.

(** Every row of the batch is among the rows selected for the permanent
    table, under the id the permanent table gives it. *)
Lemma selected_ids datos rows t :
  selected datos = Ok rows -> t ∈ datos ->
  exists u, reading_id t = Some u /\ u ∈ id_lectura <$> rows.
Proof.
  intros (srows & tmp & Hsrows & Htmp & Hrows)%selected_ok_inv Ht.
  destruct (rmap_ok_elem _ _ _ _ Hsrows Ht) as (s & Hs & Hst).
  apply Htmp, list_elem_of_fmap in Hs as (s' & Hid & Hs').
  rewrite <- (seq_scan_perm _ tmp) in Hs'.
  destruct (rmap_ok_elem _ _ _ _ Hrows Hs') as (r & Hr & Hconv).
  exists (id_lectura r). split.
  - unfold reading_id. rewrite (stage_row_id _ _ Hst), Hid. by apply convert_row_id.
  - apply list_elem_of_fmap. by exists r.
Qed.

(** The data never fails on a uniqueness constraint. *)
Lemma selected_raise datos e :
  selected datos = Raise e -> exn_cls e <> UniqueViolation.
Proof.
  unfold selected, staging. intros Hsel.
  destruct (rmap stage_row datos) as [srows|e'] eqn:Hsrows; simpl in Hsel.
  - destruct (insert_rows_do_nothing s_id_lectura srows []) as (tmp & Htmp & _).
    rewrite Htmp in Hsel. simpl in Hsel.
    apply rmap_raise_inv in Hsel as (s & _ & Hs). by eapply convert_row_raise.
  - injection Hsel as ->.
    apply rmap_raise_inv in Hsrows as (t & _ & Ht). by eapply stage_row_raise.
Qed.

Lemma persisted_none u db :
  u ∉ id_lectura <$> db -> persisted u db = 0%nat.
Proof.
  unfold persisted. induction db as [|r db IH]; simpl; intros Hnin; [done|].
  rewrite filter_cons. apply not_elem_of_cons in Hnin as [Hne Hnin].
  rewrite decide_False by done. by apply IH.
Qed.

(** In a table without duplicate ids, an id that occurs has one row. *)
Lemma persisted_once u db :
  NoDup (id_lectura <$> db) -> u ∈ id_lectura <$> db -> persisted u db = 1%nat.
Proof.
  induction db as [|r db IH]; simpl; intros Hnd Hin.
  - by apply elem_of_nil in Hin.
  - apply NoDup_cons in Hnd as [Hr Hnd]. unfold persisted. rewrite filter_cons.
    destruct (decide (id_lectura r = u)) as [<-|Hne]; simpl.
    + f_equal. by apply persisted_none.
    + apply elem_of_cons in Hin as [->|Hin]; [done|]. by apply IH.
Qed.

(** C2, as the code has it. The merge is idempotent on the batches the
    store accepts.  On a permanent table that respects its primary key, no
    run leaves two rows with the same reading id, and no run fails on the
    uniqueness constraint: a run that does not succeed leaves the table as
    it was, and its failure is the server's or that of a conversion of the
    data, never a unique violation.  After a run that succeeded, every
    reading id of the batch - however often the batch repeats it - has
    exactly one row in the permanent table, and running the merge again on
    the same rows (the server answering) succeeds, reports 0 new records and
    leaves the permanent table as it is. *)
Theorem merge_idempotent w datos db lg out db1 lg1 :
  NoDup (id_lectura <$> db) ->
  merge w datos db lg = (out, db1, lg1) ->
  NoDup (id_lectura <$> db1)
  /\ ((forall ret, out = Returned ret -> status ret <> Some (PyStr "success")) ->
      db1 = db
      /\ exists e,
           ((exists op, op ∈ merge_calls /\ pg_fault w op = Some e)
            \/ (selected datos = Raise e /\ exn_cls e <> UniqueViolation))
           /\ (out = Returned (error_postgres e)
               \/ exists e', out = Raised e' /\ pg_fault w OpRollback = Some e'))
  /\ (forall ret, out = Returned ret -> status ret = Some (PyStr "success") ->
      (forall t, t ∈ datos ->
         exists u, reading_id t = Some u /\ persisted u db1 = 1%nat)
      /\ (forall w2 lg1',
           (forall op, op ∈ merge_calls -> pg_fault w2 op = None) ->
           exists lg2,
             merge w2 datos db1 lg1' = (Returned (success 0), db1, lg2)
             /\ success 0 !! "new_records" = Some (PyInt 0))).
Proof.
  intros Hnd Hrun.
  destruct (merge_inv _ _ _ _ _ _ _ Hrun)
    as [(rows & n & Hnf & Hsel & Hins & -> & ->)
       |(e & ops & -> & -> & Hcause & _)].
  - destruct (insert_rows_do_nothing id_lectura rows db) as (added & Hok & _ & Hall & Hnd1).
    rewrite Hok in Hins. injection Hins as <- <-.
    split_and!; [by apply Hnd1| |].
    { intros Hno. by destruct (Hno _ eq_refl). }
    intros ret [= <-] _. split.
    + intros t Ht. destruct (selected_ids _ _ _ Hsel Ht) as (u & Hu & Hin).
      exists u. split; [done|]. apply persisted_once; [by apply Hnd1|].
      apply list_elem_of_fmap in Hin as (r & -> & Hr). by apply Hall.
    + intros w2 lg1' Hnf2.
      destruct (merge w2 datos (db ++ added) lg1') as [[out2 db2] lg2] eqn:Hrun2.
      destruct (merge_inv _ _ _ _ _ _ _ Hrun2)
        as [(rows2 & n2 & _ & Hsel2 & Hins2 & -> & ->)
           |(e & ops & _ & _ & [(op & Hop & He)|He] & _)].
      * assert (rows2 = rows) as -> by congruence.
        rewrite (insert_rows_present id_lectura rows (db ++ added)) in Hins2 by done.
        injection Hins2 as <- <-. by eexists.
      * rewrite Hnf2 in He by done. done.
      * congruence.
  - split_and!; [done| |].
    + intros _. split; [done|]. exists e. split.
      * destruct Hcause as [?|Hsel]; [by left|right].
        split; [done|]. by eapply selected_raise.
      * destruct (decide (ops = [OpConnect])); [by left|].
        destruct (pg_fault w OpRollback) as [e'|]; [right; by exists e'|by left].
    + intros ret Hret Hst. exfalso.
      destruct (decide (ops = [OpConnect])); [by injection Hret as <-|].
      destruct (pg_fault w OpRollback); [done|by injection Hret as <-].
Qed.

End MergeProperties.

Section NormalizeProperties.
Context `{PyNumeric}.

Lemma dict_get_present (item : gmap string pyval) k v d :
  item !! k = Some v -> dict_get item k d = v.
Proof. unfold dict_get. by intros ->. Qed.

Lemma dict_get_absent (item : gmap string pyval) k d :
  item !! k = None -> dict_get item k d = d.
Proof. unfold dict_get. by intros ->. Qed.

(** An optional field that is absent or coercible is given a value. *)
Lemma optional_field {A : Type} (item : gmap string pyval) k
    (coerce : pyval -> result A) (lit : pyval) (d : A) :
  coerce lit = Ok d ->
  (forall v, item !! k = Some v -> exists x, coerce v = Ok x) ->
  exists x, coerce (dict_get item k lit) = Ok x /\ field_value item k coerce d x.
Proof.
  intros Hlit Hpresent. unfold field_value, dict_get.
  destruct (item !! k) as [v|] eqn:Hk.
  - destruct (Hpresent v eq_refl) as [x Hx]. by exists x.
  - by exists d.
Qed.

(** [int] of a decimal drops the fraction, towards zero. *)
Lemma decimal_trunc_bounds d : integer_part d (decimal_trunc d).
Proof.
  unfold integer_part, decimal_trunc. destruct d as [a x]; simpl.
  split; intros Hx; [by rewrite decide_True|].
  rewrite decide_False by lia.
  set (k := 10 ^ (- x)). assert (Hk : 0 < k) by (apply Z.pow_pos_nonneg; lia).
  split; [|split].
  - rewrite <- (Z.quot_abs a k) by lia. rewrite (Z.abs_eq k) by lia.
    rewrite Z.quot_div_nonneg by lia.
    pose proof (Z.mul_div_le (Z.abs a) k Hk).
    pose proof (Z.mul_succ_div_gt (Z.abs a) k Hk). lia.
  - intros Ha. by apply Z.quot_pos.
  - intros Ha. replace a with (- (- a)) by lia. rewrite Z.quot_opp_l by lia.
    pose proof (Z.quot_pos (- a) k). lia.
Qed.

(** C8, as the code has it. For every raw item with a valid timestamp whose
    optional numeric fields are each absent or a value that [float] and
    [int] accept, normalisation yields a row in which temperature, humidity
    and distance are 0.0 where the item lacks them and light percentage is 0
    where the item lacks it; reading id, device id and light state are what
    the item holds ([None] when it holds none); and a numeric field that is
    present is coerced, not kept as it is: a number held for temperature,
    humidity or distance becomes its float, a number held for the light
    percentage or the timestamp becomes its integer part, the fraction
    dropped towards zero. *)
Theorem normalize_item_defaults (item : gmap string pyval) v ts :
  item !! "timestamp" = Some v -> py_int v = Ok ts ->
  (forall k x, k ∈ float_fields -> item !! k = Some x -> exists f, py_float x = Ok f) ->
  (forall x, item !! "luz_porcentaje" = Some x -> exists n, py_int x = Ok n) ->
  exists row,
    normalize_item item = Ok row
    /\ field_value item "temperatura" py_float float_zero (t_temperatura row)
    /\ field_value item "humedad" py_float float_zero (t_humedad row)
    /\ field_value item "distancia_cm" py_float float_zero (t_distancia_cm row)
    /\ field_value item "luz_porcentaje" py_int 0 (t_luz_porcentaje row)
    /\ t_id_lectura row = default PyNone (item !! "id_lectura")
    /\ t_device_id row = default PyNone (item !! "device_id")
    /\ t_estado_luz row = default PyNone (item !! "estado_luz")
    /\ t_timestamp row = ts
    /\ (forall d, item !! "temperatura" = Some (PyDecimal d) ->
          t_temperatura row = float_of_decimal d)
    /\ (forall d, item !! "humedad" = Some (PyDecimal d) ->
          t_humedad row = float_of_decimal d)
    /\ (forall d, item !! "distancia_cm" = Some (PyDecimal d) ->
          t_distancia_cm row = float_of_decimal d)
    /\ (forall d, item !! "luz_porcentaje" = Some (PyDecimal d) ->
          integer_part d (t_luz_porcentaje row))
    /\ (forall d, v = PyDecimal d -> integer_part d ts).
Proof.
  intros Hts Hnum Hfloat Hluz. unfold normalize_item.
  destruct (optional_field item "temperatura" py_float (PyFloat float_zero) float_zero)
    as (tmp & -> & Htmp); [done|intros x; apply Hfloat; by repeat constructor|].
  destruct (optional_field item "humedad" py_float (PyFloat float_zero) float_zero)
    as (hum & -> & Hhum); [done|intros x; apply Hfloat; by repeat constructor|].
  destruct (optional_field item "distancia_cm" py_float (PyFloat float_zero) float_zero)
    as (dist & -> & Hdist); [done|intros x; apply Hfloat; by repeat constructor|].
  destruct (optional_field item "luz_porcentaje" py_int (PyInt 0) 0)
    as (luz & -> & Hl); [done|done|].
  rewrite (dict_get_present _ _ _ _ Hts), Hnum. simpl.
  eexists. split; [done|]. unfold dict_get.
  split_and!; try done.
  - intros d Hd. unfold field_value in Htmp. rewrite Hd in Htmp. by injection Htmp.
  - intros d Hd. unfold field_value in Hhum. rewrite Hd in Hhum. by injection Hhum.
  - intros d Hd. unfold field_value in Hdist. rewrite Hd in Hdist. by injection Hdist.
  - intros d Hd. unfold field_value in Hl. rewrite Hd in Hl.
    injection Hl as <-. apply decimal_trunc_bounds.
  - intros d ->. injection Hnum as <-. apply decimal_trunc_bounds.
Qed.

(** An item whose timestamp is absent or not numeric is not normalised. *)
Lemma normalize_item_malformed (item : gmap string pyval) :
  (item !! "timestamp" = None
   \/ exists v e, item !! "timestamp" = Some v /\ py_int v = Raise e) ->
  exists e, normalize_item item = Raise e.
Proof.
  intros Hbad. unfold normalize_item.
  destruct (py_float (dict_get item "temperatura" _)); simpl; [|by eauto].
  destruct (py_float (dict_get item "humedad" _)); simpl; [|by eauto].
  destruct (py_float (dict_get item "distancia_cm" _)); simpl; [|by eauto].
  destruct (py_int (dict_get item "luz_porcentaje" _)); simpl; [|by eauto].
  destruct Hbad as [Habs|(v & e & Hv & He)].
  - rewrite (dict_get_absent _ _ _ Habs). simpl. by eauto.
  - rewrite (dict_get_present _ _ _ _ Hv), He. simpl. by eauto.
Qed.

End NormalizeProperties.

(** An item without humidity and light percentage. *)
Lemma normalize_item_defaults_witness :
  exists row,
    normalize_item Fixture.item_a2 = Ok row
    /\ t_humedad row = Decimal 0 0
    /\ t_luz_porcentaje row = 0
    /\ t_device_id row = PyStr "d1"
    /\ t_estado_luz row = PyNone
    /\ t_timestamp row = 1700000060.
Proof.
  destruct (normalize_item_defaults Fixture.item_a2 (Fixture.num 1700000060) 1700000060)
    as (row & Hrow & _ & Hhum & _ & Hluz & _ & Hdev & Hest & Hts & _).
  - reflexivity.
  - reflexivity.
  - intros k x Hk. unfold float_fields in Hk.
    repeat (apply elem_of_cons in Hk as [->|Hk]; [by intros [=]|]).
    by apply elem_of_nil in Hk.
  - by intros x [=].
  - exists row. split_and!; [exact Hrow|exact Hhum|exact Hluz|exact Hdev|exact Hest|exact Hts].
Defined.

(** C8 as stated fails, in two ways.  An item with a valid timestamp whose
    humidity is held as a null is not given the default: its normalisation
    raises and yields no row.  And a field that is present is not always
    kept unchanged: a light percentage of 80.7 becomes 80 and a timestamp of
    1700000120.9 becomes 1700000120. *)
Lemma null_or_fractional_field_not_preserved :
  Fixture.item_null !! "timestamp" = Some (Fixture.num 1700000120)
  /\ py_int (Fixture.num 1700000120) = Ok 1700000120
  /\ Fixture.item_null !! "humedad" = Some PyNone
  /\ normalize_item Fixture.item_null
     = Raise (Exn TypeError "float() argument must be a string or a real number")
  /\ ~ (exists row, normalize_item Fixture.item_null = Ok row)
  /\ Fixture.item_fraction !! "luz_porcentaje" = Some (PyDecimal (Decimal 807 (-1)))
  /\ Fixture.item_fraction !! "timestamp" = Some (PyDecimal (Decimal 17000001209 (-1)))
  /\ normalize_item Fixture.item_fraction = Ok Fixture.row_fraction
  /\ t_luz_porcentaje Fixture.row_fraction = 80
  /\ t_luz_porcentaje Fixture.row_fraction * 10 <> 807
  /\ t_timestamp Fixture.row_fraction = 1700000120
  /\ t_timestamp Fixture.row_fraction * 10 <> 17000001209.
Proof.
  split_and!; try reflexivity.
  - intros [row Hrow]. discriminate Hrow.
  - intros Heq. discriminate Heq.
  - intros Heq. discriminate Heq.
Qed.

Section RunProperties.
Context `{Postgres}.

(** The log of a scan holds scan requests only. *)
Lemma scan_all_log w fuel out lg :
  scan_all w fuel = Some (out, lg) -> Forall (fun ev => is_scan ev = true) lg.
Proof.
  unfold scan_all. intros (evs & -> & Hevs)%scan_loop_log. done.
Qed.

Lemma scan_log_no_pg (lg : list event) op :
  Forall (fun ev => is_scan ev = true) lg -> EvPg op ∉ lg.
Proof.
  intros Hlg Hin. rewrite Forall_forall in Hlg. by specialize (Hlg _ Hin).
Qed.

(** A run after a scan that returned items which cannot all be prepared. *)
Lemma run_preparation_fails w fuel db items lg e :
  scan_all w fuel = Some (Ok items, lg) ->
  normalize items = Raise e ->
  run_dynamo_sync w fuel db = Some (Raised e, db, lg).
Proof.
  intros Hscan Hnorm. unfold run_dynamo_sync. rewrite Hscan. simpl.
  destruct (decide (items = [])) as [->|_]; [done|]. by rewrite Hnorm.
Qed.

(** Whatever a run ends with, it either reports success or has left the
    permanent table as it found it. *)
Lemma run_error_leaves_store w fuel db out db' lg :
  run_dynamo_sync w fuel db = Some (out, db', lg) ->
  db' = db \/ exists n, out = Returned (success n).
Proof.
  unfold run_dynamo_sync. destruct (scan_all w fuel) as [[[items|e] lg0]|]; simpl; [| |done].
  - destruct (decide (items = [])) as [->|_]; [intros [= <- <- <-]; by left|].
    destruct (normalize items) as [datos|e]; [|intros [= <- <- <-]; by left].
    intros [= Hmerge].
    destruct (merge_inv _ _ _ _ _ _ _ Hmerge)
      as [(rows & n & _ & _ & _ & -> & _)|(e & ops & _ & -> & _)]; [right|left]; eauto.
  - intros [= <- <- <-]. by left.
Qed.

(** C6. When a scan request fails - the first one or, after any number of
    pages, a later one - the run returns at once the status error_dynamo (the
    specification's error_source) with the message of the error, and has
    done nothing on PostgreSQL: the only calls made are scan requests, so no
    connection was opened and nothing was staged, and the permanent table is
    the one the run started from. *)
Theorem scan_failure_aborts w rs e fuel db :
  scan_chain w None rs (Some e) -> (length rs < fuel)%nat ->
  exists lg,
    run_dynamo_sync w fuel db = Some (Returned (error_dynamo e), db, lg)
    /\ status (error_dynamo e) = Some (PyStr "error_dynamo")
    /\ error_dynamo e !! "error" = Some (PyStr (exn_msg e))
    /\ Forall (fun ev => is_scan ev = true) lg
    /\ EvPg OpConnect ∉ lg.
Proof.
  intros Hchain Hfuel.
  destruct (scan_loop_fails _ _ _ _ Hchain fuel [] [] Hfuel) as [lg Hscan].
  exists lg. unfold run_dynamo_sync. fold (scan_all w fuel) in Hscan. rewrite Hscan.
  pose proof (scan_all_log _ _ _ _ Hscan) as Hlg.
  split_and!; [done|done|done|done|by apply scan_log_no_pg].
Qed.

(** C7. When the scan returns no item at all, the run returns the status
    no_items; nothing happened after the scan - the calls made are the scan
    requests and nothing else, so neither preparation nor merge touched
    PostgreSQL - and the permanent table, hence its row count, is unchanged. *)
Theorem empty_scan_no_items w rs fuel db :
  scan_chain w None rs None -> (length rs <= fuel)%nat ->
  concat (page_items <$> rs) = [] ->
  exists db' lg,
    run_dynamo_sync w fuel db = Some (Returned no_items, db', lg)
    /\ status no_items = Some (PyStr "no_items")
    /\ lg = EvScan <$> requests None rs
    /\ db' = db /\ length db' = length db.
Proof.
  intros Hchain Hfuel Hempty. exists db, (EvScan <$> requests None rs).
  unfold run_dynamo_sync, scan_all.
  rewrite (scan_loop_complete _ _ _ Hchain) by done. simpl. rewrite Hempty. simpl.
  by split_and!.
Qed.

(** C9. An exception raised while the rows are prepared - [int] of a missing
    timestamp, [float] of a value that is no number - leaves the function
    before any connection to PostgreSQL is opened: the run ends with that
    exception, the only calls made are scan requests, and the permanent table
    is unchanged. *)
Theorem preparation_failure_leaves_store w rs fuel db e :
  scan_chain w None rs None -> (length rs <= fuel)%nat ->
  normalize (concat (page_items <$> rs)) = Raise e ->
  exists lg,
    run_dynamo_sync w fuel db = Some (Raised e, db, lg)
    /\ Forall (fun ev => is_scan ev = true) lg
    /\ EvPg OpConnect ∉ lg.
Proof.
  intros Hchain Hfuel Hnorm.
  pose proof (scan_all_chain _ _ _ Hchain Hfuel) as Hscan.
  eexists. pose proof (scan_all_log _ _ _ _ Hscan) as Hlg.
  split_and!; [by eapply run_preparation_fails|done|by apply scan_log_no_pg].
Qed.

(** C1, as the code has it. For every scan result containing an item whose
    timestamp is absent or not numeric, the preparation of the batch raises:
    no list of rows is produced, the run ends with the exception instead of
    a result, no connection to PostgreSQL is opened and the permanent table
    is unchanged - no item of the batch is persisted. *)
Theorem malformed_timestamp_fails_batch w rs fuel db (item : gmap string pyval) :
  scan_chain w None rs None -> (length rs <= fuel)%nat ->
  item ∈ concat (page_items <$> rs) ->
  (item !! "timestamp" = None
   \/ exists v e, item !! "timestamp" = Some v /\ py_int v = Raise e) ->
  exists e lg,
    normalize (concat (page_items <$> rs)) = Raise e
    /\ run_dynamo_sync w fuel db = Some (Raised e, db, lg)
    /\ Forall (fun ev => is_scan ev = true) lg
    /\ EvPg OpConnect ∉ lg.
Proof.
  intros Hchain Hfuel Hin Hbad.
  destruct (normalize_item_malformed item Hbad) as [e0 He0].
  destruct (rmap_raises normalize_item _ _ _ Hin He0) as [e He].
  pose proof (scan_all_chain _ _ _ Hchain Hfuel) as Hscan.
  exists e. eexists. pose proof (scan_all_log _ _ _ _ Hscan) as Hlg.
  split_and!; [done|by eapply run_preparation_fails|done|by apply scan_log_no_pg].
Qed.

(** C5, as the code has it. Whenever [run_dynamo_sync] returns a result
    dictionary - whatever its status, the error statuses included - the
    answer to GET /sync-dynamo has status 200 and a JSON body that holds the
    message and, under the key result, that dictionary. *)
Theorem manual_sync_embeds_result w fuel db result db' lg :
  run_dynamo_sync w fuel db = Some (Returned result, db', lg) ->
  exists body,
    GET_sync_dynamo w fuel db = Some (HttpResponse 200 (Some (PyDict body)), db', lg)
    /\ body !! "result" = Some (PyDict result)
    /\ body !! "message" = Some (PyStr "Sincronización manual completada.").
Proof.
  intros Hrun. unfold GET_sync_dynamo, manual_sync. rewrite Hrun. simpl.
  eexists. split; [reflexivity|]. by split.
Qed.

End RunProperties.

(** * The properties on the concrete environment *)

Lemma scan_failure_aborts_witness :
  exists lg,
    run_dynamo_sync Fixture.w_unavailable 1 [Fixture.reading_a1]
    = Some (Returned (error_dynamo
                        (Exn ClientError "ProvisionedThroughputExceededException")),
            [Fixture.reading_a1], lg)
    /\ EvPg OpConnect ∉ lg.
Proof.
  destruct (scan_failure_aborts Fixture.w_unavailable [] _ 1 [Fixture.reading_a1]
              unavailable_chain) as (lg & Hrun & _ & _ & _ & Hconn).
  - simpl; lia.
  - exists lg. split; [exact Hrun|exact Hconn].
Defined.

Lemma empty_scan_no_items_witness :
  exists db' lg,
    run_dynamo_sync Fixture.w_empty 1 [Fixture.reading_a1] = Some (Returned no_items, db', lg)
    /\ length db' = 1%nat.
Proof.
  destruct (empty_scan_no_items Fixture.w_empty _ 1 [Fixture.reading_a1]
              (one_page_chain [] Fixture.no_fault))
    as (db' & lg & Hrun & _ & _ & _ & Hlen).
  - simpl; lia.
  - reflexivity.
  - exists db', lg. split; [exact Hrun|exact Hlen].
Defined.

Lemma preparation_failure_leaves_store_witness :
  exists lg,
    run_dynamo_sync Fixture.w_malformed 1 [Fixture.reading_a1]
    = Some (Raised (Exn TypeError
              "int() argument must be a string, a bytes-like object or a real number"),
            [Fixture.reading_a1], lg)
    /\ EvPg OpConnect ∉ lg.
Proof.
  destruct (preparation_failure_leaves_store Fixture.w_malformed _ 1 [Fixture.reading_a1]
              (Exn TypeError
                 "int() argument must be a string, a bytes-like object or a real number")
              (one_page_chain _ Fixture.no_fault))
    as (lg & Hrun & _ & Hconn).
  - simpl; lia.
  - reflexivity.
  - exists lg. split; [exact Hrun|exact Hconn].
Defined.

Lemma malformed_timestamp_fails_batch_witness :
  exists e lg,
    normalize [Fixture.item_a2; Fixture.item_a3] = Raise e
    /\ run_dynamo_sync Fixture.w_malformed 1 [] = Some (Raised e, [], lg).
Proof.
  destruct (malformed_timestamp_fails_batch Fixture.w_malformed _ 1 [] Fixture.item_a3
              (one_page_chain _ Fixture.no_fault))
    as (e & lg & Hnorm & Hrun & _).
  - simpl; lia.
  - simpl. right. left.
  - left. reflexivity.
  - exists e, lg. split; [exact Hnorm|exact Hrun].
Defined.

(** C1 as stated fails: in a batch of two items, the second without its
    timestamp and the first a valid one, the failure is not confined to the
    malformed item.  The run does not return a result at all: it ends with
    the exception, and the valid item is not persisted. *)
Lemma malformed_item_fails_whole_batch :
  Fixture.item_a3 !! "timestamp" = None
  /\ normalize_item Fixture.item_a2 = Ok Fixture.row_a2
  /\ scan_all Fixture.w_malformed 1
     = Some (Ok [Fixture.item_a2; Fixture.item_a3], [EvScan None])
  /\ run_dynamo_sync Fixture.w_malformed 1 []
     = Some (Raised (Exn TypeError
               "int() argument must be a string, a bytes-like object or a real number"),
             [], [EvScan None])
  /\ ~ (exists ret db' lg,
         run_dynamo_sync Fixture.w_malformed 1 [] = Some (Returned ret, db', lg)
         /\ Fixture.reading_a2 ∈ db').
Proof.
  split_and!; [reflexivity|reflexivity|reflexivity|reflexivity|].
  intros (ret & db' & lg & Hrun & _). discriminate Hrun.
Qed.

Lemma manual_sync_embeds_result_witness :
  exists body result,
    GET_sync_dynamo Fixture.w_commit_fails 1 []
    = Some (HttpResponse 200 (Some (PyDict body)), [],
            [EvScan None] ++ (EvPg <$> merge_calls ++ [OpRollback; OpClose]))
    /\ body !! "result" = Some (PyDict result)
    /\ status result = Some (PyStr "error_postgres").
Proof.
  destruct (manual_sync_embeds_result Fixture.w_commit_fails 1 []
              (error_postgres (Exn OperationalError "server closed the connection")) []
              ([EvScan None] ++ (EvPg <$> merge_calls ++ [OpRollback; OpClose])))
    as (body & Hget & Hres & _).
  - reflexivity.
  - exists body, (error_postgres (Exn OperationalError "server closed the connection")).
    split_and!; [exact Hget|exact Hres|reflexivity].
Defined.

(** C5 as stated fails: when the preparation of the rows raises, the
    exception leaves [manual_sync] and the answer is 500, with no result
    embedded. *)
Lemma manual_sync_answers_500 :
  GET_sync_dynamo Fixture.w_malformed 1 [] = Some (HttpResponse 500 None, [], [EvScan None])
  /\ ~ (exists resp db' lg,
         GET_sync_dynamo Fixture.w_malformed 1 [] = Some (resp, db', lg)
         /\ status_code resp = 200).
Proof.
  assert (Hget : GET_sync_dynamo Fixture.w_malformed 1 []
                 = Some (HttpResponse 500 None, [], [EvScan None])) by reflexivity.
  split; [exact Hget|].
  intros (resp & db' & lg & Hget' & Hcode).
  rewrite Hget in Hget'. injection Hget' as <- _ _. discriminate Hcode.
Qed.

(** A batch that repeats a reading, merged twice. *)
Lemma merge_idempotent_witness :
  let rows := [Fixture.row_a1; Fixture.row_a1; Fixture.row_a2] in
  let db1 := [Fixture.reading_a1; Fixture.reading_a2] in
  let lg1 := EvPg <$> merge_calls ++ [OpClose] in
  merge Fixture.w_batch rows [] [] = (Returned (success 2), db1, lg1)
  /\ NoDup (id_lectura <$> db1)
  /\ (forall t, t ∈ rows -> exists u, reading_id t = Some u /\ persisted u db1 = 1%nat)
  /\ exists lg2, merge Fixture.w_batch rows db1 lg1 = (Returned (success 0), db1, lg2).
Proof.
  intros rows db1 lg1.
  assert (Hrun : merge Fixture.w_batch rows [] [] = (Returned (success 2), db1, lg1))
    by reflexivity.
  destruct (merge_idempotent Fixture.w_batch rows [] [] (Returned (success 2)) db1 lg1
              (NoDup_nil_2 : NoDup (id_lectura <$> [])) Hrun)
    as (Hnd & _ & Hsucc).
  destruct (Hsucc _ eq_refl eq_refl) as [Hone Hagain].
  destruct (Hagain Fixture.w_batch lg1 (fun _ _ => eq_refl)) as (lg2 & Hrun2 & _).
  split_and!; [exact Hrun|exact Hnd|exact Hone|].
  exists lg2. exact Hrun2.
Defined.

(** C2 as stated fails: idempotence does not hold for every row sequence.
    A batch with a reading whose id is not the text of a uuid is refused by
    the move to the permanent table, at the first run and at the second:
    after the two runs the valid reading of the batch has no row in the
    permanent table, not one, and the second run returns the error status
    with no count of new records, not a count of 0. *)
Lemma refused_batch_is_not_idempotent :
  let rows := [Fixture.row_a1; Fixture.row_bad] in
  let ret := error_postgres (Exn DataError "invalid input syntax for type uuid") in
  let lg1 := EvPg <$> [OpConnect; OpCursor; OpCreateTemp; OpStage; OpMove;
                       OpRollback; OpClose] in
  merge Fixture.w_batch rows [] [] = (Returned ret, [], lg1)
  /\ merge Fixture.w_batch rows [] lg1 = (Returned ret, [], lg1 ++ lg1)
  /\ reading_id Fixture.row_a1 = Some Fixture.id_a1
  /\ persisted Fixture.id_a1 [] = 0%nat
  /\ status ret = Some (PyStr "error_postgres")
  /\ ret !! "new_records" = None
  /\ ~ (exists n db2 lg2,
         merge Fixture.w_batch rows [] lg1 = (Returned (success n), db2, lg2)).
Proof.
  intros rows ret lg1.
  assert (Hrun2 : merge Fixture.w_batch rows [] lg1 = (Returned ret, [], lg1 ++ lg1))
    by reflexivity.
  split_and!; [reflexivity|exact Hrun2|reflexivity|reflexivity|reflexivity|reflexivity|].
  intros (n & db2 & lg2 & Hrun). rewrite Hrun2 in Hrun.
  apply (f_equal (fun x => if x.1.1 is Returned r then status r else None)) in Hrun.
  simpl in Hrun. rewrite status_success in Hrun. discriminate Hrun.
Qed.

(** C3 fails on the code when the rollback of the handler raises.
    PostgreSQL drops the connection while the transaction commits:
    [conn.commit()] raises, the [except] handler calls [conn.rollback()] on
    the lost connection, and that call raises too.  The [return] of the
    error result is not reached: once the [finally] has closed the
    connection the exception leaves [run_dynamo_sync], and GET /sync-dynamo
    answers 500.  The failure of the commit is not surfaced as a result of
    status error_postgres; the permanent table is as it was. *)
Lemma rollback_failure_escapes_handler :
  let e' := Exn InterfaceError "connection already closed" in
  let db := [Fixture.reading_a1] in
  let calls := EvPg <$> merge_calls ++ [OpRollback; OpClose] in
  pg_fault Fixture.w_connection_lost OpCommit
  = Some (Exn OperationalError "server closed the connection unexpectedly")
  /\ pg_fault Fixture.w_connection_lost OpRollback = Some e'
  /\ merge Fixture.w_connection_lost [Fixture.row_a1; Fixture.row_a2] db []
     = (Raised e', db, calls)
  /\ run_dynamo_sync Fixture.w_connection_lost 1 db
     = Some (Raised e', db, [EvScan None] ++ calls)
  /\ GET_sync_dynamo Fixture.w_connection_lost 1 db
     = Some (HttpResponse 500 None, db, [EvScan None] ++ calls)
  /\ ~ (exists ret db' lg,
         run_dynamo_sync Fixture.w_connection_lost 1 db = Some (Returned ret, db', lg)).
Proof.
  intros e' db calls.
  assert (Hrun : run_dynamo_sync Fixture.w_connection_lost 1 db
                 = Some (Raised e', db, [EvScan None] ++ calls)) by reflexivity.
  split_and!; [reflexivity|reflexivity|reflexivity|exact Hrun|reflexivity|].
  intros (ret & db' & lg & Hret). rewrite Hrun in Hret. discriminate Hret.
Qed.

(** The end-to-end scenario: a source table with a repeated reading and a
    reading without its optional fields gives two new rows, the second with
    its numeric fields at their defaults; a second run adds nothing. *)
Example end_to_end :
  run_dynamo_sync Fixture.w_batch 1 []
  = Some (Returned (success 2), [Fixture.reading_a1; Fixture.reading_a2],
          [EvScan None] ++ (EvPg <$> merge_calls ++ [OpClose]))
  /\ run_dynamo_sync Fixture.w_batch 1 [Fixture.reading_a1; Fixture.reading_a2]
     = Some (Returned (success 0), [Fixture.reading_a1; Fixture.reading_a2],
             [EvScan None] ++ (EvPg <$> merge_calls ++ [OpClose])).
Proof. split; reflexivity. Qed.

(** * Further properties of the synchronisation *)

Section InsertRowsOrder.
Context {R K : Type} `{EqDecision K} (pk : R -> K).

(** What ON CONFLICT DO NOTHING inserts: of the rows whose key is not in the
    table, the first one for each key, in the order of the batch. *)
Lemma insert_rows_first (new : list R) : forall tbl : list R,
  exists added,
    insert_rows pk OnConflictDoNothing tbl new = Ok (tbl ++ added, length added)
    /\ NoDup (pk <$> added)
    /\ added `sublist_of` new
    /\ (forall k, k ∈ pk <$> added <-> k ∈ pk <$> new /\ k ∉ pk <$> tbl)
    /\ (forall r, r ∈ added ->
          exists pre post, new = pre ++ r :: post /\ pk r ∉ pk <$> pre).
Proof.
  induction new as [|r new IH]; intros tbl; cbn [insert_rows].
  - exists []. rewrite app_nil_r. split_and!; [done|constructor|done| |].
    + intros k. split; [by intros ?%elem_of_nil|by intros [?%elem_of_nil _]].
    + by intros r ?%elem_of_nil.
  - destruct (decide (pk r ∈ pk <$> tbl)) as [Hin|Hnin].
    + destruct (IH tbl) as (added & -> & Hnd & Hsub & Hkeys & Hfirst).
      exists added. split_and!; [done|done|by apply sublist_cons| |].
      * intros k. rewrite Hkeys, fmap_cons, elem_of_cons. split; [intros [? ?]; split; [by right|done]|].
        intros [[->|Hk] Hn]; [done|by split].
      * intros r' Hr'. destruct (Hfirst r' Hr') as (pre & post & -> & Hpre).
        exists (r :: pre), post. split; [done|].
        rewrite fmap_cons, not_elem_of_cons. split; [|done].
        intros Heq. assert (Hk : pk r' ∈ pk <$> added).
        { apply list_elem_of_fmap. by exists r'. }
        apply Hkeys in Hk as [_ Hk]. by rewrite Heq in Hk.
    + destruct (IH (tbl ++ [r])) as (added & -> & Hnd & Hsub & Hkeys & Hfirst).
      assert (Hr : pk r ∉ pk <$> added).
      { intros [_ Hk]%Hkeys. apply Hk. rewrite fmap_app. apply elem_of_app.
        right. by left. }
      exists (r :: added). cbn [mbind result_bind fst snd length]. rewrite <- app_assoc. simpl app.
      split_and!; [done|by constructor|by apply sublist_skip| |].
      * intros k. rewrite !fmap_cons, !elem_of_cons, Hkeys, fmap_app, elem_of_app.
        rewrite fmap_cons, list_elem_of_singleton. split.
        -- intros [->|[Hk Hn]]; [by split; [left|]|]. split; [by right|].
           intros ?. apply Hn. by left.
        -- intros [[->|Hk] Hn]; [by left|].
           destruct (decide (k = pk r)) as [->|Hne]; [by left|right].
           split; [done|]. by intros [?|?].
      * intros r' [->|Hr']%elem_of_cons.
        -- exists [], new. split; [done|]. by intros ?%elem_of_nil.
        -- destruct (Hfirst r' Hr') as (pre & post & -> & Hpre).
           exists (r :: pre), post. split; [done|].
           rewrite fmap_cons, not_elem_of_cons. split; [|done].
           intros Heq. apply Hr. rewrite <- Heq. apply list_elem_of_fmap. by exists r'.
Qed.

End InsertRowsOrder.

Section RmapLoop.
Context {A B : Type} (f : A -> result B).

Lemma rmap_ok_intro (xs : list A) ys :
  Forall2 (fun x y => f x = Ok y) xs ys -> rmap f xs = Ok ys.
Proof.
  induction 1 as [|x y xs ys Hx _ IH]; simpl; [done|]. by rewrite Hx, IH.
Qed.

Lemma rmap_ok_elem_r (xs : list A) ys y :
  rmap f xs = Ok ys -> y ∈ ys -> exists x, x ∈ xs /\ f x = Ok y.
Proof.
  intros Hys%rmap_ok_inv Hy.
  destruct (proj1 (list_elem_of_lookup ys y) Hy) as [i Hi].
  destruct (Forall2_lookup_r _ _ _ _ _ Hys Hi) as (x & Hx & Hfx).
  exists x. split; [|done]. by eapply list_elem_of_lookup_2.
Qed.

Lemma rmap_length (xs : list A) ys :
  rmap f xs = Ok ys -> length ys = length xs.
Proof. intros Hys%rmap_ok_inv. symmetry. by eapply Forall2_length. Qed.

(** The loop raises the exception of the first element that fails. *)
Lemma rmap_first_failure (xs : list A) e :
  rmap f xs = Raise e <->
  exists pre x post ys,
    xs = pre ++ x :: post /\ rmap f pre = Ok ys /\ f x = Raise e.
Proof.
  split.
  - induction xs as [|x xs IH]; simpl; [done|].
    destruct (f x) as [y|e'] eqn:Hx; simpl.
    + destruct (rmap f xs) as [ys|e'] eqn:Hxs; simpl; [done|].
      intros [= ->]. destruct IH as (pre & x' & post & ys & -> & Hpre & Hx'); [done|].
      exists (x :: pre), x', post, (y :: ys). split; [done|]. simpl.
      by rewrite Hx, Hpre.
    + intros [= ->]. by exists [], x, xs, [].
  - intros (pre & x & post & ys & -> & Hpre & Hx). revert ys Hpre.
    induction pre as [|x' pre IH]; simpl; intros ys Hpre.
    + by rewrite Hx.
    + destruct (f x') as [y|e'] eqn:Hx'; simpl in *; [|done].
      destruct (rmap f pre) as [ys'|e'] eqn:Hxs; simpl in *; [|done].
      by rewrite (IH ys').
Qed.

End RmapLoop.

Section MergeCounts.
Context `{Postgres}.

(** What [staging] is made of. *)
Lemma staging_ok_inv datos tmp :
  staging datos = Ok tmp ->
  exists srows,
    rmap stage_row datos = Ok srows
    /\ insert_rows s_id_lectura OnConflictDoNothing [] srows = Ok (tmp, length tmp).
Proof.
  unfold staging. intros Hst.
  destruct (rmap stage_row datos) as [srows|e] eqn:Hsrows; simpl in Hst; [|done].
  destruct (insert_rows_first s_id_lectura srows []) as (added & Hins & _).
  rewrite Hins in Hst. simpl in Hst. injection Hst as <-. by exists srows.
Qed.

Lemma selected_staging datos rows :
  selected datos = Ok rows ->
  exists tmp, staging datos = Ok tmp /\ rmap convert_row (seq_scan tmp) = Ok rows.
Proof.
  unfold selected. intros Hsel.
  destruct (staging datos) as [tmp|e]; simpl in Hsel; [|done]. by exists tmp.
Qed.

(** The ids of the rows selected for the permanent table are the reading
    ids of the batch. *)
Lemma selected_ids_iff datos rows u :
  selected datos = Ok rows ->
  u ∈ id_lectura <$> rows <-> exists t, t ∈ datos /\ reading_id t = Some u.
Proof.
  intros Hsel. split.
  - intros (r & -> & Hr)%list_elem_of_fmap.
    destruct (selected_staging _ _ Hsel) as (tmp & Hst & Hrows).
    destruct (staging_ok_inv _ _ Hst) as (srows & Hsrows & Hins).
    destruct (rmap_ok_elem_r _ _ _ _ Hrows Hr) as (s & Hs & Hconv).
    rewrite (seq_scan_perm _ tmp) in Hs.
    destruct (insert_rows_first s_id_lectura srows []) as (added & Hins' & _ & Hsub & _).
    rewrite Hins in Hins'. injection Hins' as -> _.
    assert (Hs' : s ∈ srows) by (by eapply elem_of_sublist).
    destruct (rmap_ok_elem_r _ _ _ _ Hsrows Hs') as (t & Ht & Hst').
    exists t. split; [done|]. unfold reading_id.
    rewrite (stage_row_id _ _ Hst'). by apply convert_row_id.
  - intros (t & Ht & Hu). destruct (selected_ids _ _ _ Hsel Ht) as (u' & Hu' & Hin).
    congruence.
Qed.

(** X1. After a merge that succeeded, the permanent table is the old one
    followed by the new rows, new_records is their number, and the new rows
    carry, once each, exactly the reading ids of the batch that the table
    did not hold: a reading repeated in the batch, or two texts of the same
    uuid, count once, a reading already stored counts for nothing. *)
Theorem new_records_counts_new_ids w datos db lg ret db' lg' :
  merge w datos db lg = (Returned ret, db', lg') ->
  status ret = Some (PyStr "success") ->
  exists added,
    db' = db ++ added
    /\ ret !! "new_records" = Some (PyInt (Z.of_nat (length added)))
    /\ NoDup (id_lectura <$> added)
    /\ (forall u, u ∈ id_lectura <$> added <->
          ((u ∉ id_lectura <$> db) /\ exists t, t ∈ datos /\ reading_id t = Some u)).
Proof.
  intros Hrun Hst.
  destruct (merge_returned_inv _ _ _ _ _ _ _ Hrun)
    as [(rows & n & _ & Hsel & Hins & -> & _)|(e & ops & -> & _)]; [|done].
  destruct (insert_rows_first id_lectura rows db) as (added & Hok & Hnd & _ & Hkeys & _).
  rewrite Hok in Hins. injection Hins as <- <-.
  exists added. split_and!; [done|done|done|].
  intros u. rewrite Hkeys, (selected_ids_iff _ _ _ Hsel). tauto.
Qed.

(** X2. The reading that is staged for an id the scan repeats is the first
    one scanned: the temporary table holds one row per id text, each the
    first row of the batch with that id, and every id of the batch is
    there. *)
Theorem staging_keeps_first datos tmp :
  staging datos = Ok tmp ->
  exists srows,
    rmap stage_row datos = Ok srows
    /\ NoDup (s_id_lectura <$> tmp)
    /\ (forall s, s ∈ tmp ->
          exists pre post, srows = pre ++ s :: post
            /\ s_id_lectura s ∉ s_id_lectura <$> pre)
    /\ (forall s, s ∈ srows -> s_id_lectura s ∈ s_id_lectura <$> tmp).
Proof.
  intros (srows & Hsrows & Hins)%staging_ok_inv.
  destruct (insert_rows_first s_id_lectura srows [])
    as (added & Hins' & Hnd & _ & Hkeys & Hfirst).
  rewrite Hins in Hins'. injection Hins' as -> _.
  exists srows. split_and!; [done|done|done|].
  intros s Hs. apply Hkeys. split; [|by intros ?%elem_of_nil].
  apply list_elem_of_fmap. by exists s.
Qed.

End MergeCounts.

Section MergeCalls.
Context `{Postgres}.

(** The calls of a merge, by cases on where it stops. *)
Lemma merge_calls_inv w datos db lg out db' lg' :
  merge w datos db lg = (out, db', lg') ->
  (pg_fault w OpConnect <> None /\ lg' = lg ++ [EvPg OpConnect]
   /\ exists e, out = Returned (error_postgres e))
  \/ (pg_fault w OpConnect = None
      /\ ((exists ops,
             ops `prefix_of` [OpCursor; OpCreateTemp; OpStage; OpMove; OpCommit]
             /\ ops <> []
             /\ lg' = lg ++ (EvPg <$> OpConnect :: ops ++ [OpRollback; OpClose])
             /\ match pg_fault w OpRollback with
                | None => exists e, out = Returned (error_postgres e)
                | Some e' => out = Raised e'
                end
             /\ (OpCommit ∈ ops -> pg_fault w OpCommit <> None))
          \/ (lg' = lg ++ (EvPg <$> merge_calls ++ [OpClose])
              /\ exists n, out = Returned (success n)))).
Proof.
  merge_unfold.
  destruct (pg_fault w OpConnect) as [e|] eqn:Hconnect; simpl.
  { intros [= <- <- <-]. left. split_and!; [done|done|by eexists]. }
  destruct (pg_fault w OpCursor) as [e|] eqn:Hcursor; simpl.
  { failed_after [OpCursor]. }
  destruct (pg_fault w OpCreateTemp) as [e|] eqn:Hcreate; simpl.
  { failed_after [OpCursor; OpCreateTemp]. }
  destruct (pg_fault w OpStage) as [e|] eqn:Hstage; simpl.
  { failed_after [OpCursor; OpCreateTemp; OpStage]. }
  destruct (rmap stage_row datos) as [srows|e] eqn:Hsrows; simpl.
  2: { failed_after [OpCursor; OpCreateTemp; OpStage]. }
  destruct (insert_rows s_id_lectura OnConflictDoNothing [] srows) as [[tmp ntmp]|e]
    eqn:Htmp; simpl.
  2: { failed_after [OpCursor; OpCreateTemp; OpStage]. }
  destruct (pg_fault w OpMove) as [e|] eqn:Hmove; simpl.
  { failed_after [OpCursor; OpCreateTemp; OpStage; OpMove]. }
  destruct (rmap convert_row (seq_scan tmp)) as [rows|e] eqn:Hrows; simpl.
  2: { failed_after [OpCursor; OpCreateTemp; OpStage; OpMove]. }
  destruct (insert_rows id_lectura OnConflictDoNothing db rows) as [[tbl n]|e]
    eqn:Hins; simpl.
  2: { failed_after [OpCursor; OpCreateTemp; OpStage; OpMove]. }
  destruct (pg_fault w OpCommit) as [e|] eqn:Hcommit; simpl.
  { failed_after [OpCursor; OpCreateTemp; OpStage; OpMove; OpCommit]. }
  intros [= <- <- <-]. right. split; [done|]. right.
  split; [by rewrite <- !app_assoc|by eexists].
Qed.

(** X3. The connection of a merge is opened once and, once opened, closed
    once, as the last call, whether the merge succeeds, returns an error or
    ends with an exception; when it cannot be opened nothing else is called
    and the error result is returned.  On an open connection
    [conn.rollback()] is called exactly when the merge does not succeed, and
    never after a commit that succeeded; the merge then returns the error
    result when the rollback returns, and ends with the exception of the
    rollback when it raises. *)
Theorem merge_closes_connection w datos db lg out db' lg' :
  merge w datos db lg = (out, db', lg') ->
  exists calls,
    lg' = lg ++ (EvPg <$> calls)
    /\ (pg_fault w OpConnect <> None ->
        calls = [OpConnect] /\ exists e, out = Returned (error_postgres e))
    /\ (pg_fault w OpConnect = None ->
        exists ops,
          calls = OpConnect :: ops ++ [OpClose]
          /\ (OpConnect ∉ ops) /\ (OpClose ∉ ops)
          /\ (OpRollback ∈ ops <-> forall n, out <> Returned (success n))
          /\ (forall ret, out = Returned ret ->
                (OpRollback ∈ ops <-> status ret = Some (PyStr "error_postgres")))
          /\ (OpRollback ∈ ops -> pg_fault w OpRollback = None ->
              exists e, out = Returned (error_postgres e))
          /\ (forall e', out = Raised e' <->
                (OpRollback ∈ ops /\ pg_fault w OpRollback = Some e'))
          /\ (OpRollback ∈ ops -> OpCommit ∈ ops -> pg_fault w OpCommit <> None)).
Proof.
  intros Hrun.
  assert (Hnot : forall ops : list pg_op,
    ops `prefix_of` [OpCursor; OpCreateTemp; OpStage; OpMove; OpCommit] ->
    (OpConnect ∉ ops) /\ (OpClose ∉ ops) /\ (OpRollback ∉ ops)).
  { intros ops [k Hk].
    assert (Hin' : forall op, op ∈ ops ->
      op ∈ [OpCursor; OpCreateTemp; OpStage; OpMove; OpCommit])
      by (intros op ?; rewrite Hk; apply elem_of_app; by left).
    split_and!; intros Hin; apply Hin' in Hin; not_among Hin. }
  destruct (merge_calls_inv _ _ _ _ _ _ _ Hrun)
    as [(Hc & -> & Hout)|[Hc [(ops & Hpre & Hne & -> & Hout & Hcommit)|(-> & [n ->])]]].
  - exists [OpConnect]. by split_and!.
  - exists (OpConnect :: ops ++ [OpRollback; OpClose]). split_and!; [done|done|].
    intros _. exists (ops ++ [OpRollback]).
    destruct (Hnot ops Hpre) as (Hn1 & Hn2 & Hn3).
    assert (Hrb : OpRollback ∈ ops ++ [OpRollback])
      by (apply elem_of_app; right; by left).
    split_and!.
    + by rewrite <- app_assoc.
    + rewrite elem_of_app, list_elem_of_singleton. by intros [?|[=]].
    + rewrite elem_of_app, list_elem_of_singleton. by intros [?|[=]].
    + split; [|done]. intros _ n ->.
      destruct (pg_fault w OpRollback); [done|]. by destruct Hout as [e [=]].
    + intros ret ->. split; [|done]. intros _.
      destruct (pg_fault w OpRollback); [done|].
      destruct Hout as [e [= ->]]. apply status_error_postgres.
    + intros _ Hnone. by rewrite Hnone in Hout.
    + intros e'. split.
      * intros ->. split; [done|].
        destruct (pg_fault w OpRollback); [by injection Hout as ->|].
        by destruct Hout as [e [=]].
      * intros [_ Hsome]. by rewrite Hsome in Hout.
    + intros _ Hin. apply Hcommit.
      by apply elem_of_app in Hin as [Hin|[=]%list_elem_of_singleton].
  - exists (merge_calls ++ [OpClose]). split_and!; [done|done|].
    intros _. exists [OpCursor; OpCreateTemp; OpStage; OpMove; OpCommit].
    split_and!; [done| | | | | | |].
    + intros Hin. not_among Hin.
    + intros Hin. not_among Hin.
    + split; [intros Hin; not_among Hin|]. intros Hno. by destruct (Hno n).
    + intros ret [= <-]. split; [intros Hin; not_among Hin|by intros [=]].
    + intros Hin. not_among Hin.
    + intros e'. split; [by intros [=]|]. intros [Hin _]. not_among Hin.
    + intros Hin. not_among Hin.
Qed.


End MergeCalls.

Section RunInvariants.
Context `{Postgres}.

Lemma status_no_items : status no_items = Some (PyStr "no_items").
Proof. reflexivity. Qed.

Lemma status_error_dynamo e : status (error_dynamo e) = Some (PyStr "error_dynamo").
Proof. reflexivity. Qed.

(** The results a run can return. *)
Lemma run_returned_inv w fuel db ret db' lg :
  run_dynamo_sync w fuel db = Some (Returned ret, db', lg) ->
  (ret = no_items /\ db' = db /\ scan_all w fuel = Some (Ok [], lg))
  \/ (exists e, ret = error_dynamo e /\ db' = db /\ scan_all w fuel = Some (Raise e, lg))
  \/ (exists items lg0 datos,
        scan_all w fuel = Some (Ok items, lg0) /\ items <> []
        /\ normalize items = Ok datos
        /\ merge w datos db lg0 = (Returned ret, db', lg)).
Proof.
  unfold run_dynamo_sync.
  destruct (scan_all w fuel) as [[[items|e] lg0]|]; simpl; [| |done].
  - destruct (decide (items = [])) as [->|Hne]; [intros [= <- <- <-]; by left|].
    destruct (normalize items) as [datos|e] eqn:Hnorm; [|done].
    intros [= Hmerge]. right. right. by exists items, lg0, datos.
  - intros [= <- <- <-]. right. left. by exists e.
Qed.

(** X4. A run that reports success has enlarged the permanent table by
    exactly new_records rows, and new_records is at most the number of items
    the scan returned. *)
Theorem run_success_row_count w fuel db ret db' lg :
  run_dynamo_sync w fuel db = Some (Returned ret, db', lg) ->
  status ret = Some (PyStr "success") ->
  exists (n : nat) items lg0,
    ret !! "new_records" = Some (PyInt (Z.of_nat n))
    /\ scan_all w fuel = Some (Ok items, lg0)
    /\ length db' = (length db + n)%nat
    /\ (n <= length items)%nat.
Proof.
  intros Hrun Hst.
  destruct (run_returned_inv _ _ _ _ _ _ Hrun)
    as [(-> & _)|[(e & -> & _)|(items & lg0 & datos & Hscan & _ & Hnorm & Hmerge)]];
    [done|done|].
  destruct (merge_returned_inv _ _ _ _ _ _ _ Hmerge)
    as [(rows & n & _ & Hsel & Hins & -> & _)|(e & ops & -> & _)]; [|done].
  destruct (insert_rows_first id_lectura rows db) as (added & Hok & _ & Hsub & _).
  rewrite Hok in Hins. injection Hins as <- <-.
  exists (length added), items, lg0. split_and!; [done|done|by rewrite length_app|].
  destruct (selected_staging _ _ Hsel) as (tmp & Hstg & Hrows).
  destruct (staging_ok_inv _ _ Hstg) as (srows & Hsrows & Hins).
  destruct (insert_rows_first s_id_lectura srows []) as (added' & Hok' & _ & Hsub' & _).
  rewrite Hok' in Hins. injection Hins as <- _.
  apply sublist_length in Hsub, Hsub'.
  apply rmap_length in Hrows, Hsrows, Hnorm.
  rewrite (Permutation_length (seq_scan_perm _ added')) in Hrows. lia.
Qed.

(** X5. Whatever a run ends with - a result of any status or an exception -
    it has only appended to the permanent table: the rows it found are
    still there, unchanged and in place, and a table that respected its
    primary key still does. *)
Theorem run_only_appends w fuel db out db' lg :
  run_dynamo_sync w fuel db = Some (out, db', lg) ->
  db `prefix_of` db'
  /\ (NoDup (id_lectura <$> db) -> NoDup (id_lectura <$> db')).
Proof.
  unfold run_dynamo_sync.
  destruct (scan_all w fuel) as [[[items|e] lg0]|]; simpl; [| |done].
  - destruct (decide (items = [])) as [->|Hne]; [by intros [= <- <- <-]|].
    destruct (normalize items) as [datos|e] eqn:Hnorm; [|by intros [= <- <- <-]].
    intros [= Hmerge].
    destruct (merge_inv _ _ _ _ _ _ _ Hmerge)
      as [(rows & n & _ & _ & Hins & _)|(e & ops & _ & -> & _)]; [|done].
    destruct (insert_rows_do_nothing id_lectura rows db) as (added & Hok & _ & _ & Hnd).
    rewrite Hok in Hins. injection Hins as <- _.
    split; [by exists added|done].
  - by intros [= <- <- <-].
Qed.

(** X6. One reading whose id cannot be stored - absent, too long for the
    staging column or not the text of a uuid - fails the whole batch: on
    every permanent table and whatever the server does, the merge does not
    succeed and persists nothing, the valid readings of the batch included.
    It returns the error status, unless the rollback of the handler raises:
    then the merge ends with that exception. *)
Theorem unreadable_id_fails_batch w datos db lg t :
  t ∈ datos -> reading_id t = None ->
  exists out lg',
    merge w datos db lg = (out, db, lg')
    /\ (forall n, out <> Returned (success n))
    /\ ((exists e, out = Returned (error_postgres e))
        \/ (exists e', out = Raised e' /\ pg_fault w OpRollback = Some e'))
    /\ (pg_fault w OpRollback = None -> exists e, out = Returned (error_postgres e)).
Proof.
  intros Ht Hid.
  destruct (merge w datos db lg) as [[out db'] lg'] eqn:Hrun.
  destruct (merge_inv _ _ _ _ _ _ _ Hrun)
    as [(rows & n & _ & Hsel & _)|(e & ops & -> & -> & _)].
  { destruct (selected_ids _ _ _ Hsel Ht) as (u & Hu & _). congruence. }
  eexists _, lg'. split; [done|].
  destruct (decide (ops = [OpConnect])) as [Hops|Hops].
  - split_and!; [|left; by exists e|intros _; by exists e].
    intros m. apply error_postgres_not_success.
  - destruct (pg_fault w OpRollback) as [e'|].
    + split_and!; [done|right; by exists e'|done].
    + split_and!; [|left; by exists e|intros _; by exists e].
      intros m. apply error_postgres_not_success.
Qed.

(** X7. The dictionary a run returns has one of four shapes: its status is
    no_items, error_dynamo, success or error_postgres; it carries an error
    message exactly under the two error statuses and a count of new records
    exactly under success. *)
Theorem run_result_shape w fuel db ret db' lg :
  run_dynamo_sync w fuel db = Some (Returned ret, db', lg) ->
  (ret = no_items \/ (exists e, ret = error_dynamo e)
   \/ (exists n, ret = success n) \/ (exists e, ret = error_postgres e))
  /\ (is_Some (ret !! "error") <->
        status ret = Some (PyStr "error_dynamo")
        \/ status ret = Some (PyStr "error_postgres"))
  /\ (is_Some (ret !! "new_records") <-> status ret = Some (PyStr "success")).
Proof.
  intros Hrun.
  assert (Hshape : ret = no_items \/ (exists e, ret = error_dynamo e)
   \/ (exists n, ret = success n) \/ (exists e, ret = error_postgres e)).
  { destruct (run_returned_inv _ _ _ _ _ _ Hrun)
      as [(-> & _)|[(e & -> & _)|(items & lg0 & datos & _ & _ & _ & Hmerge)]];
      [by left|right; left; by exists e|].
    destruct (merge_returned_inv _ _ _ _ _ _ _ Hmerge)
      as [(rows & n & _ & _ & _ & -> & _)|(e & ops & -> & _)].
    - right. right. left. by exists n.
    - right. right. right. by exists e. }
  split; [done|].
  destruct Hshape as [->|[[e ->]|[[n ->]|[e ->]]]].
  - split; split; try (intros [? [=]]); try (intros [[=]|[=]]); intros [=].
  - split; split; try (intros [? [=]]); try (intros [=]); [by left|by eexists].
  - split; split; try (intros [? [=]]); try (intros [[=]|[=]]); [done|by eexists].
  - split; split; try (intros [? [=]]); try (intros [=]); [by right|by eexists].
Qed.

(** X8. The answer to GET /sync-dynamo follows the run: it is there when the
    run ends, with the effects of the run; it is 200 exactly when the run
    returned a result and 500 exactly when the run ended with an exception,
    and in that case it has no body and the permanent table is unchanged. *)
Theorem manual_sync_follows_run w fuel db :
  (GET_sync_dynamo w fuel db = None <-> run_dynamo_sync w fuel db = None)
  /\ forall resp db' lg,
       GET_sync_dynamo w fuel db = Some (resp, db', lg) ->
       exists out,
         run_dynamo_sync w fuel db = Some (out, db', lg)
         /\ (status_code resp = 200 <-> exists ret, out = Returned ret)
         /\ (status_code resp = 500 <-> exists e, out = Raised e)
         /\ (status_code resp = 500 -> json resp = None /\ db' = db).
Proof.
  unfold GET_sync_dynamo, manual_sync.
  destruct (run_dynamo_sync w fuel db) as [[[[ret|e] db1] lg1]|] eqn:Hrun; simpl.
  - split; [by split|]. intros resp db' lg [= <- <- <-]. eexists. split; [done|].
    simpl. split_and!; [by split; eauto| |done].
    split; [done|]. by intros [? [=]].
  - split; [by split|]. intros resp db' lg [= <- <- <-]. eexists. split; [done|].
    simpl. split_and!.
    + split; [done|]. by intros [? [=]].
    + split; eauto.
    + intros _. split; [done|].
      destruct (run_error_leaves_store _ _ _ _ _ _ Hrun) as [?|[n [=]]]. done.
  - split; [done|]. by intros.
Qed.

(** X9. The scan has no bound of its own: on a source table whose every
    response carries a continuation key the loop never leaves, whatever the
    number of iterations, and the run never returns. *)
Theorem scan_never_ends w db :
  (forall k, exists r k', dynamo_scan w k = Ok r /\ LastEvaluatedKey r = Some k') ->
  forall fuel, scan_all w fuel = None /\ run_dynamo_sync w fuel db = None.
Proof.
  intros Hmore fuel.
  assert (Hloop : forall k items lg, scan_loop w fuel k items lg = None).
  { induction fuel as [|fuel IH]; intros k items lg; simpl; [done|].
    destruct (Hmore k) as (r & k' & -> & ->). apply IH. }
  assert (Hscan : scan_all w fuel = None) by apply Hloop.
  split; [done|]. unfold run_dynamo_sync. by rewrite Hscan.
Qed.

End RunInvariants.

Section NormalizeEdges.
Context `{PyNumeric}.

(** X10. The preparation loop is all or nothing and stops at the first
    item it cannot prepare: it yields rows exactly when every item can be
    prepared, one row per item in the order of the scan (items that repeat
    are prepared again), and otherwise it raises the exception of the first
    item that fails, whatever the items after it. *)
Theorem normalize_all_or_first_failure (items : list (gmap string pyval)) :
  (forall rows,
     normalize items = Ok rows <->
     Forall2 (fun item row => normalize_item item = Ok row) items rows)
  /\ (forall e,
       normalize items = Raise e <->
       exists pre item post rows,
         items = pre ++ item :: post
         /\ normalize pre = Ok rows
         /\ normalize_item item = Raise e).
Proof.
  split.
  - intros rows. split; [apply rmap_ok_inv|apply rmap_ok_intro].
  - intros e. apply rmap_first_failure.
Qed.

(** X11. The default of an optional numeric field is used only when the
    item lacks the field: an item that holds the field with a null value is
    not given the default, its preparation raises. *)
Theorem null_field_not_defaulted (item : gmap string pyval) k :
  k ∈ numeric_fields -> item !! k = Some PyNone ->
  exists e, normalize_item item = Raise e.
Proof.
  intros Hk Hnull. unfold normalize_item.
  unfold numeric_fields, float_fields in Hk. simpl in Hk.
  destruct (py_float (dict_get item "temperatura" _)) as [tmp|] eqn:Htmp; simpl;
    [|by eauto].
  destruct (py_float (dict_get item "humedad" _)) as [hum|] eqn:Hhum; simpl;
    [|by eauto].
  destruct (py_float (dict_get item "distancia_cm" _)) as [dist|] eqn:Hdist; simpl;
    [|by eauto].
  destruct (py_int (dict_get item "luz_porcentaje" _)) as [luz|] eqn:Hluz; simpl;
    [|by eauto].
  exfalso.
  repeat (apply elem_of_cons in Hk as [->|Hk];
          [by rewrite (dict_get_present _ _ _ _ Hnull) in *|]).
  by apply elem_of_nil in Hk.
Qed.

(** X12. A timestamp or a light percentage that DynamoDB holds as a decimal
    number is stored as its integer part, each of the two fields on its own:
    the fraction is dropped, towards zero, not rounded; a decimal without
    fraction is stored as it is. *)
Theorem decimal_fields_truncated (item : gmap string pyval) row :
  normalize_item item = Ok row ->
  (forall d, item !! "timestamp" = Some (PyDecimal d) ->
     t_timestamp row = decimal_trunc d /\ integer_part d (t_timestamp row))
  /\ (forall d, item !! "luz_porcentaje" = Some (PyDecimal d) ->
     t_luz_porcentaje row = decimal_trunc d /\ integer_part d (t_luz_porcentaje row)).
Proof.
  unfold normalize_item. intros Hrow.
  destruct (py_float (dict_get item "temperatura" _)); simpl in Hrow; [|done].
  destruct (py_float (dict_get item "humedad" _)); simpl in Hrow; [|done].
  destruct (py_float (dict_get item "distancia_cm" _)); simpl in Hrow; [|done].
  destruct (py_int (dict_get item "luz_porcentaje" _)) as [luz|] eqn:Hluz;
    simpl in Hrow; [|done].
  destruct (py_int (dict_get item "timestamp" _)) as [ts|] eqn:Hts;
    simpl in Hrow; [|done].
  injection Hrow as <-. simpl. split; intros d Hd.
  - rewrite (dict_get_present _ _ _ _ Hd) in Hts. injection Hts as <-.
    split; [done|apply decimal_trunc_bounds].
  - rewrite (dict_get_present _ _ _ _ Hd) in Hluz. injection Hluz as <-.
    split; [done|apply decimal_trunc_bounds].
Qed.

End NormalizeEdges.

Section ReadProperties.
Context `{TimestampOrder}.

Lemma select_ordered_perm db : select_ordered db ≡ₚ db.
Proof.
  unfold select_ordered. by rewrite merge_sort_Permutation, seq_scan_perm.
Qed.

Lemma select_ordered_sorted db : StronglySorted earlier (select_ordered db).
Proof.
  unfold select_ordered.
  assert (Transitive earlier).
  { intros r1 r2 r3. unfold earlier. apply ts_le_trans. }
  assert (Total earlier).
  { intros r1 r2. unfold earlier. apply ts_le_total. }
  apply StronglySorted_merge_sort; apply _.
Qed.

(** X13. GET /api/lecturas answers 200 exactly when none of its calls on
    PostgreSQL fails, and then its body is the permanent table itself -
    every row once, none added, none changed - in ascending order of the
    reading timestamp, and the connection has been closed. *)
Theorem get_lecturas_serves_table fault db :
  (lecturas_status (get_lecturas fault db).1 = 200 <->
     forall op, op ∈ read_calls -> fault op = None)
  /\ ((forall op, op ∈ read_calls -> fault op = None) ->
      exists data,
        get_lecturas fault db
        = (LecturasResponse 200 (JsonRows data), read_calls ++ [RdClose])
        /\ data ≡ₚ db
        /\ StronglySorted earlier data).
Proof.
  assert (Hall : (forall op, op ∈ read_calls -> fault op = None) <->
    fault RdConnect = None /\ fault RdCursor = None
    /\ fault RdExecute = None /\ fault RdFetchall = None).
  { split.
    - intros Hnf. split_and!; apply Hnf; by repeat constructor.
    - intros (? & ? & ? & ?) op Hop. unfold read_calls in Hop.
      repeat (apply elem_of_cons in Hop as [->|Hop]; [done|]).
      by apply elem_of_nil in Hop. }
  rewrite Hall. unfold get_lecturas, get_lecturas_try. split.
  - destruct (fault RdConnect), (fault RdCursor), (fault RdExecute),
      (fault RdFetchall); simpl; split; try done; by intros (? & ? & ? & ?).
  - intros (-> & -> & -> & ->). exists (select_ordered db).
    split_and!; [done|apply select_ordered_perm|apply select_ordered_sorted].
Qed.

(** X14. When a call of GET /api/lecturas on PostgreSQL fails, the calls
    before it having succeeded, the endpoint does not raise: it answers 500
    with the JSON object {"error": "Error en la base de datos local: " +
    str(e)}, no row in the body, makes no further call except closing the
    connection, and closes it exactly when it had been opened. *)
Theorem get_lecturas_failure fault db pre op post e :
  read_calls = pre ++ op :: post ->
  (forall o, o ∈ pre -> fault o = None) ->
  fault op = Some e ->
  get_lecturas fault db
  = (LecturasResponse 500 (JsonObject (dict [
       entry "error" (PyStr ("Error en la base de datos local: " +:+ exn_msg e))])),
     pre ++ [op] ++ (if decide (op = RdConnect) then [] else [RdClose])).
Proof.
  intros Hcalls Hpre He. unfold read_calls in Hcalls.
  unfold get_lecturas, get_lecturas_try.
  destruct pre as [|o1 [|o2 [|o3 [|o4 pre]]]]; simplify_eq/=.
  - by rewrite He.
  - rewrite (Hpre RdConnect), He by (by repeat constructor). done.
  - rewrite (Hpre RdConnect), (Hpre RdCursor), He by (by repeat constructor). done.
  - rewrite (Hpre RdConnect), (Hpre RdCursor), (Hpre RdExecute), He
      by (by repeat constructor). done.
  - by destruct pre.
Qed.

(** X15. What a successful run has merged is what the dashboard reads next:
    on a permanent table that respects its primary key, after a run that
    returned success, GET /api/lecturas (its calls succeeding) serves every
    row the table held before the run and, for every reading the run
    prepared, exactly one row with that reading's id. *)
Theorem synced_readings_are_served w fuel db ret db' lg fault :
  NoDup (id_lectura <$> db) ->
  run_dynamo_sync w fuel db = Some (Returned ret, db', lg) ->
  status ret = Some (PyStr "success") ->
  (forall op, op ∈ read_calls -> fault op = None) ->
  exists data items lg0 datos,
    get_lecturas fault db'
    = (LecturasResponse 200 (JsonRows data), read_calls ++ [RdClose])
    /\ scan_all w fuel = Some (Ok items, lg0)
    /\ normalize items = Ok datos
    /\ (forall r, r ∈ db -> r ∈ data)
    /\ (forall t, t ∈ datos ->
          exists u, reading_id t = Some u /\ persisted u data = 1%nat).
Proof.
  intros Hnd Hrun Hst Hnf.
  destruct (run_returned_inv _ _ _ _ _ _ Hrun)
    as [(-> & _)|[(e & -> & _)|(items & lg0 & datos & Hscan & _ & Hnorm & Hmerge)]];
    [done|done|].
  destruct (merge_returned_inv _ _ _ _ _ _ _ Hmerge)
    as [(rows & n & _ & Hsel & Hins & -> & _)|(e & ops & -> & _)]; [|done].
  destruct (insert_rows_do_nothing id_lectura rows db) as (added & Hok & _ & Hall & Hnd').
  rewrite Hok in Hins. injection Hins as <- <-.
  exists (select_ordered (db ++ added)), items, lg0, datos.
  pose proof (select_ordered_perm (db ++ added)) as Hperm.
  split_and!; [|done|done| |].
  - unfold get_lecturas, get_lecturas_try.
    by rewrite !Hnf by (by repeat constructor).
  - intros r Hr. rewrite Hperm. apply elem_of_app. by left.
  - intros t Ht. destruct (selected_ids _ _ _ Hsel Ht) as (u & Hu & Hin).
    exists u. split; [done|]. apply persisted_once.
    + rewrite Hperm. by apply Hnd'.
    + rewrite Hperm. apply list_elem_of_fmap in Hin as (r & -> & Hr). by apply Hall.
Qed.

End ReadProperties.

(** * The further properties on the concrete environment *)

(** A batch with a reading repeated, once under another text of its uuid,
    on a table that holds the other reading already. *)
Lemma new_records_counts_new_ids_witness :
  exists added,
    merge Fixture.w_batch [Fixture.row_a1; Fixture.row_a1_upper; Fixture.row_a2]
          [Fixture.reading_a2] []
    = (Returned (success 1), [Fixture.reading_a2] ++ added,
       EvPg <$> merge_calls ++ [OpClose])
    /\ length added = 1%nat
    /\ NoDup (id_lectura <$> added).
Proof.
  destruct (new_records_counts_new_ids Fixture.w_batch
              [Fixture.row_a1; Fixture.row_a1_upper; Fixture.row_a2]
              [Fixture.reading_a2] [] (success 1)
              [Fixture.reading_a2; Fixture.reading_a1]
              (EvPg <$> merge_calls ++ [OpClose]))
    as (added & Hdb & Hn & Hnd & _).
  - reflexivity.
  - reflexivity.
  - exists added. injection Hn as Hn. apply Nat2Z.inj in Hn.
    split_and!; [by rewrite <- Hdb|by symmetry|exact Hnd].
Defined.

Lemma staging_keeps_first_witness :
  exists srows,
    rmap stage_row [Fixture.row_a1; Fixture.row_a1; Fixture.row_a2] = Ok srows
    /\ length srows = 3%nat
    /\ NoDup (s_id_lectura <$> [Fixture.staged_a1; Fixture.staged_a2]).
Proof.
  destruct (staging_keeps_first [Fixture.row_a1; Fixture.row_a1; Fixture.row_a2]
              [Fixture.staged_a1; Fixture.staged_a2])
    as (srows & Hsrows & Hnd & _).
  - reflexivity.
  - exists srows. split_and!; [exact Hsrows| |exact Hnd].
    injection Hsrows as <-. reflexivity.
Defined.

Lemma merge_closes_connection_witness :
  exists calls,
    EvPg <$> merge_calls ++ [OpRollback; OpClose] = [] ++ (EvPg <$> calls)
    /\ exists ops, calls = OpConnect :: ops ++ [OpClose] /\ OpRollback ∈ ops.
Proof.
  destruct (merge_closes_connection Fixture.w_connection_lost
              [Fixture.row_a1; Fixture.row_a2] [Fixture.reading_a1] []
              (Raised (Exn InterfaceError "connection already closed"))
              [Fixture.reading_a1] (EvPg <$> merge_calls ++ [OpRollback; OpClose]))
    as (calls & Hlog & _ & Hopen).
  - reflexivity.
  - destruct (Hopen eq_refl) as (ops & Hcalls & _ & _ & _ & _ & _ & Hraised & _).
    exists calls. split; [exact Hlog|]. exists ops. split; [exact Hcalls|].
    apply (Hraised (Exn InterfaceError "connection already closed")). reflexivity.
Defined.


Lemma run_success_row_count_witness :
  exists (n : nat) items lg0,
    success 1 !! "new_records" = Some (PyInt (Z.of_nat n))
    /\ scan_all Fixture.w_batch 1 = Some (Ok items, lg0)
    /\ length [Fixture.reading_a2; Fixture.reading_a1] = (1 + n)%nat
    /\ (n <= length items)%nat.
Proof.
  apply (run_success_row_count Fixture.w_batch 1 [Fixture.reading_a2] (success 1)
           [Fixture.reading_a2; Fixture.reading_a1]
           ([EvScan None] ++ (EvPg <$> merge_calls ++ [OpClose]))).
  - reflexivity.
  - reflexivity.
Defined.

Lemma run_only_appends_witness :
  [Fixture.reading_a2] `prefix_of` [Fixture.reading_a2; Fixture.reading_a1]
  /\ (NoDup (id_lectura <$> [Fixture.reading_a2]) ->
      NoDup (id_lectura <$> [Fixture.reading_a2; Fixture.reading_a1])).
Proof.
  apply (run_only_appends Fixture.w_batch 1 [Fixture.reading_a2]
           (Returned (success 1)) [Fixture.reading_a2; Fixture.reading_a1]
           ([EvScan None] ++ (EvPg <$> merge_calls ++ [OpClose]))).
  reflexivity.
Defined.

(** One row with an id that is no uuid, among valid rows. *)
Lemma unreadable_id_fails_batch_witness :
  exists e lg',
    merge Fixture.w_batch [Fixture.row_a1; Fixture.row_bad; Fixture.row_a2]
          [Fixture.reading_a2] []
    = (Returned (error_postgres e), [Fixture.reading_a2], lg').
Proof.
  destruct (unreadable_id_fails_batch Fixture.w_batch
              [Fixture.row_a1; Fixture.row_bad; Fixture.row_a2]
              [Fixture.reading_a2] [] Fixture.row_bad)
    as (out & lg' & Hrun & _ & _ & Hret).
  - right. left.
  - reflexivity.
  - destruct (Hret eq_refl) as [e He]. exists e, lg'. rewrite <- He. exact Hrun.
Defined.

Lemma run_result_shape_witness :
  is_Some (error_postgres (Exn OperationalError "server closed the connection")
             !! "error")
  /\ ~ is_Some (error_postgres (Exn OperationalError "server closed the connection")
                  !! "new_records").
Proof.
  destruct (run_result_shape Fixture.w_commit_fails 1 []
              (error_postgres (Exn OperationalError "server closed the connection")) []
              ([EvScan None] ++ (EvPg <$> merge_calls ++ [OpRollback; OpClose])))
    as (_ & Herr & Hnew).
  - reflexivity.
  - split.
    + apply Herr. right. reflexivity.
    + intros Hs. apply Hnew in Hs. discriminate Hs.
Defined.

Lemma scan_never_ends_witness :
  scan_all Fixture.w_endless 1000 = None
  /\ run_dynamo_sync Fixture.w_endless 1000 [] = None.
Proof.
  apply (scan_never_ends Fixture.w_endless []).
  intros k. eexists _, _. split; reflexivity.
Defined.

Lemma null_field_not_defaulted_witness :
  exists e, normalize_item Fixture.item_null = Raise e.
Proof.
  apply (null_field_not_defaulted Fixture.item_null "humedad").
  - right. left.
  - reflexivity.
Defined.

Lemma decimal_fields_truncated_witness :
  normalize_item Fixture.item_fraction = Ok Fixture.row_fraction
  /\ t_timestamp Fixture.row_fraction = 1700000120
  /\ t_luz_porcentaje Fixture.row_fraction = 80
  /\ integer_part (Decimal 807 (-1)) 80.
Proof.
  destruct (decimal_fields_truncated Fixture.item_fraction Fixture.row_fraction)
    as (Hts & Hluz).
  - reflexivity.
  - destruct (Hts (Decimal 17000001209 (-1)) eq_refl) as [Hts' _].
    destruct (Hluz (Decimal 807 (-1)) eq_refl) as [Hluz' Hpart].
    split_and!; [reflexivity|exact Hts'|exact Hluz'|exact Hpart].
Defined.

Lemma get_lecturas_failure_witness :
  get_lecturas (Fixture.read_fault_at RdExecute "relation does not exist")
               [Fixture.reading_a2; Fixture.reading_a1]
  = (LecturasResponse 500 (JsonObject (dict [
       entry "error"
         (PyStr "Error en la base de datos local: relation does not exist")])),
     [RdConnect; RdCursor; RdExecute; RdClose]).
Proof.
  apply (get_lecturas_failure
           (Fixture.read_fault_at RdExecute "relation does not exist")
           [Fixture.reading_a2; Fixture.reading_a1]
           [RdConnect; RdCursor] RdExecute [RdFetchall]
           (Exn OperationalError "relation does not exist")).
  - reflexivity.
  - intros o Ho. apply elem_of_cons in Ho as [->|Ho]; [reflexivity|].
    apply elem_of_cons in Ho as [->|Ho]; [reflexivity|]. by apply elem_of_nil in Ho.
  - reflexivity.
Defined.

Lemma synced_readings_are_served_witness :
  exists data,
    get_lecturas Fixture.no_read_fault [Fixture.reading_a2; Fixture.reading_a1]
    = (LecturasResponse 200 (JsonRows data), read_calls ++ [RdClose])
    /\ Fixture.reading_a2 ∈ data.
Proof.
  destruct (synced_readings_are_served Fixture.w_batch 1 [Fixture.reading_a2]
              (success 1) [Fixture.reading_a2; Fixture.reading_a1]
              ([EvScan None] ++ (EvPg <$> merge_calls ++ [OpClose]))
              Fixture.no_read_fault)
    as (data & _ & _ & _ & Hget & _ & _ & Hold & _).
  - apply NoDup_singleton.
  - reflexivity.
  - reflexivity.
  - reflexivity.
  - exists data. split; [exact Hget|]. apply Hold. left.
Defined.

(** The rows come back in the order of their timestamps, whatever the order
    in which the table holds them. *)
Example get_lecturas_sorted_example :
  get_lecturas Fixture.no_read_fault [Fixture.reading_a2; Fixture.reading_a1]
  = (LecturasResponse 200 (JsonRows [Fixture.reading_a1; Fixture.reading_a2]),
     [RdConnect; RdCursor; RdExecute; RdFetchall; RdClose]).
Proof. reflexivity. Qed.

Lemma manual_sync_follows_run_witness :
  exists out,
    run_dynamo_sync Fixture.w_malformed 1 [Fixture.reading_a1]
    = Some (out, [Fixture.reading_a1], [EvScan None])
    /\ exists e, out = Raised e.
Proof.
  destruct (manual_sync_follows_run Fixture.w_malformed 1 [Fixture.reading_a1])
    as [_ Hget].
  destruct (Hget (HttpResponse 500 None) [Fixture.reading_a1] [EvScan None])
    as (out & Hrun & _ & Hraised & _).
  - reflexivity.
  - exists out. split; [exact Hrun|]. apply Hraised. reflexivity.
Defined.

Lemma normalize_all_or_first_failure_witness :
  exists pre item post rows,
    [Fixture.item_a2; Fixture.item_a3; Fixture.item_a1] = pre ++ item :: post
    /\ normalize pre = Ok rows
    /\ normalize_item item
       = Raise (Exn TypeError
           "int() argument must be a string, a bytes-like object or a real number").
Proof.
  destruct (normalize_all_or_first_failure
              [Fixture.item_a2; Fixture.item_a3; Fixture.item_a1]) as [_ Hraise].
  apply Hraise. reflexivity.
Defined.

Lemma get_lecturas_serves_table_witness :
  exists data,
    get_lecturas Fixture.no_read_fault [Fixture.reading_a2; Fixture.reading_a1]
    = (LecturasResponse 200 (JsonRows data), read_calls ++ [RdClose])
    /\ data ≡ₚ [Fixture.reading_a2; Fixture.reading_a1]
    /\ StronglySorted earlier data.
Proof.
  destruct (get_lecturas_serves_table Fixture.no_read_fault
              [Fixture.reading_a2; Fixture.reading_a1]) as [_ Hok].
  apply Hok. intros op _. reflexivity.
Defined.
